(** * Role-based user management (NestJS): authentication and authorization core

    A shallow embedding of the TypeScript sources: the [Users] entity and its
    [UserRole] enum, [UsersService] and [UsersController], [SeedService],
    [AuthService], the two passport strategies and [RolesGuard].

    Conventions of the embedding.
    - An [async] method is a computation in the monad [M]: it threads the
      table of the [Users] repository and either returns or throws;
      [await] is the monadic bind and [try]/[catch] is [try_catch].
    - The third-party libraries are the environment.  [bcrypt] is an
      interface ([Bcrypt.Lib]) with the facts used about it stated apart
      ([Bcrypt.Laws]); the randomness of a call (the salt, the uuid of a new
      row) and the clock are explicit arguments.  A signed token is a record
      of its claims and its signature, the signature algorithm being a
      parameter ([Jwt.Signer]).
    - Console output is not part of the model. *)

From Stdlib Require Import String Ascii List Bool Arith ZArith Lia.
Import ListNotations.
Local Open Scope list_scope.
Local Open Scope string_scope.

Set Implicit Arguments.

(** ** JavaScript strings *)

Module Js.

(** [String.prototype.includes]: [searchString] occurs somewhere in [s]. *)
Fixpoint includes (s searchString : string) : bool :=
  if String.prefix searchString s then true
  else match s with
       | EmptyString => false
       | String _ s' => includes s' searchString
       end.

End Js.

(** ** users/entities/users.enitity.ts *)

Inductive UserRole : Type :=
| SUPERADMIN
| ADMIN
| USER.

(** The string each member of the enum stands for at run time. *)
Definition UserRole_value (r : UserRole) : string :=
  match r with
  | SUPERADMIN => "superadmin"
  | ADMIN => "admin"
  | USER => "user"
  end.

Definition UserRole_eqb (a b : UserRole) : bool :=
  match a, b with
  | SUPERADMIN, SUPERADMIN | ADMIN, ADMIN | USER, USER => true
  | _, _ => false
  end.

Record Users : Type := mkUsers
  { id : string;
    username : string;
    password : string;
    role : UserRole }.

(** The argument of [Repository.create]: an entity that has no [id] yet. *)
Record UsersDraft : Type := mkDraft
  { draft_username : string;
    draft_password : string;
    draft_role : UserRole }.

(** users/dto/update-user.dto.ts, which is also the [Partial<Users>] that
    [UsersService.update] receives: every field is optional. *)
Record UpdateUserDto : Type := mkUpdate
  { upd_username : option string;
    upd_password : option string;
    upd_role : option UserRole }.

(** users/dto/create-user.dto.ts *)
Record CreateUserDto : Type := mkCreate
  { new_username : string;
    new_password : string;
    new_role : UserRole }.

(** ** Exceptions *)

Inductive Exception : Type :=
| NotFoundException (message : string)
| ForbiddenException (message : string)
| UnauthorizedException
| BadRequestException
| UpdateValuesMissingError
| QueryFailedError (message : string).

(** The status code the exception filter of the framework answers with. *)
Definition getStatus (e : Exception) : Z :=
  match e with
  | NotFoundException _ => 404
  | ForbiddenException _ => 403
  | UnauthorizedException => 401
  | BadRequestException => 400
  | UpdateValuesMissingError => 500
  | QueryFailedError _ => 500
  end%Z.

(** ** The monad of asynchronous methods *)

Inductive Completion (A : Type) : Type :=
| Return (a : A)
| Throw (e : Exception).
Arguments Return {A} a.
Arguments Throw {A} e.

(** The rows of the [users] table, in the order the table yields them. *)
Definition Table : Type := list Users.

Definition M (A : Type) : Type := Table -> Table * Completion A.

Definition ret {A} (a : A) : M A := fun t => (t, Return a).

Definition throw {A} (e : Exception) : M A := fun t => (t, Throw e).

Definition bind {A B} (m : M A) (k : A -> M B) : M B :=
  fun t =>
    match m t with
    | (t', Return a) => k a t'
    | (t', Throw e) => (t', Throw e)
    end.

Definition try_catch {A} (m : M A) (handler : Exception -> M A) : M A :=
  fun t =>
    match m t with
    | (t', Return a) => (t', Return a)
    | (t', Throw e) => handler e t'
    end.

Declare Scope async_scope.
Delimit Scope async_scope with async.
Notation "x <- m ;; k" := (bind m (fun x => k))
  (at level 61, m at next level, right associativity) : async_scope.
Notation "m ;; k" := (bind m (fun _ => k))
  (at level 61, right associativity) : async_scope.
Local Open Scope async_scope.

(** ** The TypeORM repository of [Users] *)

Module Repository.

Record UpdateResult : Type := mkResult { affected : nat }.

(** Keys are compared as strings; the syntax of a uuid is not modelled. *)
Definition has_id (i : string) (u : Users) : bool := String.eqb (id u) i.

Definition create (username password : string) (role : UserRole) : UsersDraft :=
  {| draft_username := username; draft_password := password; draft_role := role |}.

(** [save] of an entity without id inserts a row; the primary key is a
    generated uuid ([uuid] is the one drawn for this insertion).  A clash
    with an existing key is refused by the database. *)
Definition save (uuid : string) (d : UsersDraft) : M Users :=
  fun t =>
    if existsb (has_id uuid) t
    then (t, Throw (QueryFailedError "duplicate key value violates unique constraint"))
    else
      let u := {| id := uuid;
                  username := draft_username d;
                  password := draft_password d;
                  role := draft_role d |} in
      ((t ++ [u])%list, Return u).

Definition no_values (p : UpdateUserDto) : bool :=
  match upd_username p, upd_password p, upd_role p with
  | None, None, None => true
  | _, _, _ => false
  end.

(** The columns present in [p] overwrite those of [u]. *)
Definition assign (u : Users) (p : UpdateUserDto) : Users :=
  {| id := id u;
     username := match upd_username p with Some x => x | None => username u end;
     password := match upd_password p with Some x => x | None => password u end;
     role := match upd_role p with Some x => x | None => role u end |}.

(** [update(id, partial)]: an UPDATE of the rows whose key is [id]; it
    throws when [partial] sets no column. *)
Definition update (i : string) (p : UpdateUserDto) : M UpdateResult :=
  fun t =>
    if no_values p then (t, Throw UpdateValuesMissingError)
    else
      (map (fun u => if has_id i u then assign u p else u) t,
       Return {| affected := List.length (filter (has_id i) t) |}).

(** [delete(id)]: a DELETE of the rows whose key is [id]. *)
Definition delete (i : string) : M UpdateResult :=
  fun t =>
    (filter (fun u => negb (has_id i u)) t,
     Return {| affected := List.length (filter (has_id i) t) |}).

Definition find : M (list Users) := fun t => (t, Return t).

(** [findOne({ where: { username } })]: the first row with that username,
    [null] (here [None]) when there is none. *)
Definition findOne (name : string) : M (option Users) :=
  fun t => (t, Return (List.find (fun u => String.eqb (username u) name) t)).

End Repository.


(** ** bcrypt *)

Module Bcrypt.

(** bcrypt reads no more than the first 72 bytes of the data it hashes. *)
Definition key (data : string) : string := substring 0 72 data.

(** [hash data rounds s] is [bcrypt.hash(data, rounds)] when the salt the
    call draws is [s]; [compare data encrypted] is [bcrypt.compare]. *)
Class Lib : Type :=
  { Salt : Type;
    hash : string -> nat -> Salt -> string;
    compare : string -> string -> bool }.

(** What is used of the library: a digest verifies the data it was made
    from, it verifies no data with another key, and it is a string in the
    modular crypt format, which opens with a dollar sign. *)
Class Laws (L : Lib) : Prop :=
  { compare_hash :
      forall data rounds s, compare data (hash data rounds s) = true;
    compare_sound :
      forall data data' rounds s,
        compare data (hash data' rounds s) = true -> key data = key data';
    hash_format :
      forall data rounds s, String.prefix "$" (hash data rounds s) = true }.

(** An instance without any cryptography, to run the model on concrete
    inputs: the digest spells out the salt (one character) and the key. *)
Definition plain : Lib :=
  {| Salt := ascii;
     hash := fun data _ s => String "$" (String s (key data));
     compare := fun data encrypted =>
       match encrypted with
       | String c (String _ k) => Ascii.eqb c "$" && String.eqb k (key data)
       | _ => false
       end |}.

End Bcrypt.

(** ** jsonwebtoken, as configured by [JwtModule.register] in auth.module.ts *)

Module Jwt.

(** The object [AuthService.login] signs. *)
Record Payload : Type := mkPayload
  { payload_username : string;
    payload_sub : string;
    payload_role : UserRole }.

(** The claims of a token: the payload with the two dates [sign] adds. *)
Record Claims : Type := mkClaims
  { claim_username : string;
    sub : string;
    claim_role : UserRole;
    iat : Z;
    exp : Z }.

Record Token : Type := mkToken
  { claims : Claims;
    signature : string }.

(** The keyed signature of a claim set (HMAC with SHA-256 by default). *)
Class Signer : Type := hs256 : string -> Claims -> string.

(** [signOptions: { expiresIn: '60m' }], in seconds. *)
Definition expiresIn : Z := 60 * 60.

Inductive VerifyError : Type :=
| JsonWebTokenError
| TokenExpiredError.

Section WithSigner.
Context {signer : Signer}.

(** [now] is the clock in seconds. *)
Definition sign (secret : string) (now : Z) (p : Payload) : Token :=
  let c := {| claim_username := payload_username p;
              sub := payload_sub p;
              claim_role := payload_role p;
              iat := now;
              exp := now + expiresIn |} in
  {| claims := c; signature := hs256 secret c |}.

(** The signature is checked first, then the expiry date
    ([ignoreExpiration: false]): a token is expired from [exp] on. *)
Definition verify (secret : string) (now : Z) (t : Token) : VerifyError + Claims :=
  if String.eqb (signature t) (hs256 secret (claims t)) then
    if (now >=? exp (claims t))%Z then inl TokenExpiredError
    else inr (claims t)
  else inl JsonWebTokenError.

End WithSigner.

(** A signer to run the model on concrete inputs. *)
Definition plain : Signer :=
  fun secret c =>
    secret ++ "." ++ sub c ++ "." ++ claim_username c
           ++ "." ++ UserRole_value (claim_role c).

End Jwt.

(** ** users/users.service.ts *)

Module UsersService.
Section WithBcrypt.
Context {bcrypt : Bcrypt.Lib}.

(** [salt] is the salt [bcrypt.hash] draws, [uuid] the key of the new row. *)
Definition create (salt : Bcrypt.Salt) (uuid : string)
    (username password : string) (role : UserRole) : M Users :=
  let hashedPassword := Bcrypt.hash password 10 salt in
  let user := Repository.create username hashedPassword role in
  Repository.save uuid user.

Definition update (id : string) (user : UpdateUserDto) : M unit :=
  result <- Repository.update id user ;;
  if Nat.eqb (Repository.affected result) 0
  then throw (NotFoundException ("User with ID " ++ id ++ " not found."))
  else ret tt.

Definition delete (id : string) : M unit :=
  result <- Repository.delete id ;;
  if Nat.eqb (Repository.affected result) 0
  then throw (NotFoundException ("User with ID " ++ id ++ " not found."))
  else ret tt.

Definition findAll : M (list Users) := Repository.find.

Definition findOne (username : string) : M (option Users) :=
  Repository.findOne username.

End WithBcrypt.
End UsersService.

(** ** seed/seed.service.ts *)

Module SeedService.
Section WithBcrypt.
Context {bcrypt : Bcrypt.Lib}.

(** [salt] is drawn by the call of [bcrypt.hash] in [seed] itself, [salt']
    and [uuid] by [UsersService.create]. *)
Definition seed (salt salt' : Bcrypt.Salt) (uuid : string) : M unit :=
  let username := "superadmin" in
  let password := "superadmin" in
  let role := SUPERADMIN in
  existingUser <- UsersService.findOne username ;;
  match existingUser with
  | None =>
      let hashedPassword := Bcrypt.hash password 10 salt in
      _ <- UsersService.create salt' uuid username hashedPassword role ;;
      ret tt
  | Some _ => ret tt
  end.

End WithBcrypt.
End SeedService.

(** ** auth/auth.service.ts *)

(** A user record without its [password] property: the [result] of
    [const { password, ...result } = user]. *)
Record UserWithoutPassword : Type := mkResultUser
  { result_id : string;
    result_username : string;
    result_role : UserRole }.

Record AccessToken : Type := mkAccess { access_token : Jwt.Token }.

Module AuthService.
Section WithLibraries.
Context {bcrypt : Bcrypt.Lib} {signer : Jwt.Signer}.

Definition validateUser (username pass : string) : M (option UserWithoutPassword) :=
  user <- UsersService.findOne username ;;
  match user with
  | Some {| id := id; username := name; password := password; role := role |} =>
      if Bcrypt.compare pass password
      then
        let result := {| result_id := id;
                         result_username := name;
                         result_role := role |} in
        ret (Some result)
      else ret None
  | None => ret None
  end.

(** [secret] is the secret the JwtModule was registered with and [now] the
    clock when [jwtService.sign] runs. *)
Definition login (secret : string) (now : Z) (user : UserWithoutPassword) : M AccessToken :=
  let payload := {| Jwt.payload_username := result_username user;
                    Jwt.payload_sub := result_id user;
                    Jwt.payload_role := result_role user |} in
  ret {| access_token := Jwt.sign secret now payload |}.

End WithLibraries.
End AuthService.

(** ** auth/strategy/local-auth.strategy.ts and auth/guard/local-auth.guard.ts *)

Module LocalStrategy.
Section WithBcrypt.
Context {bcrypt : Bcrypt.Lib}.

Definition validate (username password : string) : M UserWithoutPassword :=
  user <- AuthService.validateUser username password ;;
  match user with
  | None => throw UnauthorizedException
  | Some u => ret u
  end.

End WithBcrypt.
End LocalStrategy.

Module LocalAuthGuard.
Section WithBcrypt.
Context {bcrypt : Bcrypt.Lib}.

(** The passport-local strategy fails, without calling [validate], when a
    credential is missing or empty; the guard turns every failure into an
    [UnauthorizedException].  On success the user is put on the request. *)
Definition canActivate (username password : string) : M UserWithoutPassword :=
  if String.eqb username "" || String.eqb password ""
  then throw UnauthorizedException
  else LocalStrategy.validate username password.

End WithBcrypt.
End LocalAuthGuard.

(** ** auth/auth.controller.ts *)

Module AuthController.
Section WithLibraries.
Context {bcrypt : Bcrypt.Lib} {signer : Jwt.Signer}.

(** POST /auth/login, behind [LocalAuthGuard]. *)
Definition login (secret : string) (now : Z) (username password : string) : M AccessToken :=
  user <- LocalAuthGuard.canActivate username password ;;
  AuthService.login secret now user.

End WithLibraries.
End AuthController.

(** ** auth/strategy/jwt.strategy.ts and auth/guard/jwt.guard.ts *)

(** The user a request carries once the token has been verified. *)
Record RequestUser : Type := mkRequestUser
  { userId : string;
    user_username : string;
    user_role : UserRole }.

Module JwtStrategy.

Definition validate (payload : Jwt.Claims) : RequestUser :=
  {| userId := Jwt.sub payload;
     user_username := Jwt.claim_username payload;
     user_role := Jwt.claim_role payload |}.

End JwtStrategy.

Module JwtAuthGuard.
Section WithSigner.
Context {signer : Jwt.Signer}.

(** [bearer] is the token of the Authorization header, [None] when the
    header is missing or holds no token.  Every failure of the strategy is
    an [UnauthorizedException]. *)
Definition canActivate (secret : string) (now : Z) (bearer : option Jwt.Token)
  : Completion RequestUser :=
  match bearer with
  | None => Throw UnauthorizedException
  | Some t =>
      match Jwt.verify secret now t with
      | inl _ => Throw UnauthorizedException
      | inr payload => Return (JwtStrategy.validate payload)
      end
  end.

End WithSigner.
End JwtAuthGuard.

(** ** auth/decorator/roles.decorator.ts and auth/guard/roles.guard.ts *)

(** [Roles(...roles)] attaches the array of its arguments under [ROLES_KEY]. *)
Definition Roles (roles : list UserRole) : option (list UserRole) := Some roles.

(** What [RolesGuard] reads of the execution context: the metadata under
    [ROLES_KEY] of the handler and of the class ([None]: not set), and the
    user of the request. *)
Record ExecutionContext : Type := mkContext
  { getHandler : option (list UserRole);
    getClass : option (list UserRole);
    request_user : RequestUser }.

Module Reflector.

(** The first metadata that is defined among the targets. *)
Fixpoint getAllAndOverride {A} (targets : list (option A)) : option A :=
  match targets with
  | [] => None
  | Some v :: _ => Some v
  | None :: rest => getAllAndOverride rest
  end.

End Reflector.

Module RolesGuard.

Definition canActivate (context : ExecutionContext) : bool :=
  let requiredRoles :=
    Reflector.getAllAndOverride [getHandler context; getClass context] in
  match requiredRoles with
  | None => true
  | Some requiredRoles =>
      let user := request_user context in
      existsb (fun role =>
                 Js.includes (UserRole_value (user_role user)) (UserRole_value role))
              requiredRoles
  end.

End RolesGuard.

(** ** users/users.controller.ts *)

Record Message : Type := mkMessage { message : string }.

Module UsersController.
Section WithBcrypt.
Context {bcrypt : Bcrypt.Lib}.

Definition create (salt : Bcrypt.Salt) (uuid : string)
    (createUserDto : CreateUserDto) : M Users :=
  try_catch
    (UsersService.create salt uuid
       (new_username createUserDto)
       (new_password createUserDto)
       (new_role createUserDto))
    (fun error => throw (ForbiddenException "No access to create user.")).

Definition update (id : string) (updateUserDto : UpdateUserDto) : M Message :=
  try_catch
    (UsersService.update id updateUserDto ;;
     ret {| message := "User updated successfully." |})
    (fun error => throw (ForbiddenException "No access to update user.")).

Definition delete (id : string) : M Message :=
  try_catch
    (UsersService.delete id ;;
     ret {| message := "User deleted successfully." |})
    (fun error => throw (ForbiddenException "No access to delete user.")).

Definition findAll : M (list Users) := UsersService.findAll.

(** The [Roles] metadata of the four handlers; the class carries none. *)
Definition create_roles : option (list UserRole) := Roles [SUPERADMIN; ADMIN].
Definition update_roles : option (list UserRole) := Roles [SUPERADMIN; ADMIN].
Definition delete_roles : option (list UserRole) := Roles [SUPERADMIN].
Definition findAll_roles : option (list UserRole) := Roles [SUPERADMIN; ADMIN].
Definition class_roles : option (list UserRole) := None.

End WithBcrypt.
End UsersController.

(** ** The routes of the users controller, as a client reaches them *)

(** A JSON object of string properties, in the order of its keys. *)
Definition JsonObject : Type := list (string * string).

Definition property (key : string) (o : JsonObject) : option string :=
  match List.find (fun kv => String.eqb (fst kv) key) o with
  | Some kv => Some (snd kv)
  | None => None
  end.

(** A handler's result is sent as its JSON text: for an entity, all its
    own properties, that is all the columns of the row. *)
Definition Users_toJSON (u : Users) : JsonObject :=
  [ ("id", id u);
    ("username", username u);
    ("password", password u);
    ("role", UserRole_value (role u)) ].

Definition Message_toJSON (m : Message) : JsonObject :=
  [ ("message", message m) ].

Module UsersRoutes.
Section WithLibraries.
Context {bcrypt : Bcrypt.Lib} {signer : Jwt.Signer}.
Variable secret : string.
Variable now : Z.

(** [@UseGuards(JwtAuthGuard, RolesGuard)]: the guards run in this order
    before the handler; a guard that returns false is answered with a
    [ForbiddenException]. *)
Definition UseGuards {A} (bearer : option Jwt.Token)
    (handler_roles : option (list UserRole)) (handler : M A) : M A :=
  match JwtAuthGuard.canActivate secret now bearer with
  | Throw e => throw e
  | Return user =>
      let context := {| getHandler := handler_roles;
                        getClass := UsersController.class_roles;
                        request_user := user |} in
      if RolesGuard.canActivate context then handler
      else throw (ForbiddenException "Forbidden resource")
  end.

(** The [ValidationPipe] of POST /users: [@IsNotEmpty] on both strings. *)
Definition validate_create (dto : CreateUserDto) : bool :=
  negb (String.eqb (new_username dto) "") && negb (String.eqb (new_password dto) "").

Definition POST_users (bearer : option Jwt.Token) (salt : Bcrypt.Salt)
    (uuid : string) (body : CreateUserDto) : M JsonObject :=
  UseGuards bearer UsersController.create_roles
    (if validate_create body
     then user <- UsersController.create salt uuid body ;; ret (Users_toJSON user)
     else throw BadRequestException).

Definition PUT_users (bearer : option Jwt.Token) (id : string)
    (body : UpdateUserDto) : M JsonObject :=
  UseGuards bearer UsersController.update_roles
    (m <- UsersController.update id body ;; ret (Message_toJSON m)).

Definition DELETE_users (bearer : option Jwt.Token) (id : string) : M JsonObject :=
  UseGuards bearer UsersController.delete_roles
    (m <- UsersController.delete id ;; ret (Message_toJSON m)).

Definition GET_users (bearer : option Jwt.Token) : M (list JsonObject) :=
  UseGuards bearer UsersController.findAll_roles
    (users <- UsersController.findAll ;; ret (map Users_toJSON users)).

End WithLibraries.
End UsersRoutes.

(** ** Sample data, to run the model *)

Module Sample.

Definition secret : string := "my-secret-key".

Definition root : Users :=
  {| id := "1"; username := "superadmin";
     password := "$2b$10$N9qo8uLOickgx2ZMRZoMye"; role := SUPERADMIN |}.

Definition bob : Users :=
  {| id := "2"; username := "bob";
     password := "$2b$10$CwTycUXWue0Thq9StjUM0u"; role := USER |}.

Definition table : Table := [root; bob].

(** The token a login of [root] at time 0 yields under [Jwt.plain]. *)
Definition root_token : Jwt.Token :=
  Jwt.sign (signer := Jwt.plain) secret 0
    {| Jwt.payload_username := username root;
       Jwt.payload_sub := id root;
       Jwt.payload_role := role root |}.

Definition root_user : RequestUser :=
  {| userId := "1"; user_username := "superadmin"; user_role := SUPERADMIN |}.

Definition new_password_only : UpdateUserDto :=
  {| upd_username := None; upd_password := Some "hunter2"; upd_role := None |}.

End Sample.

(** ** app.module.ts *)

Module AppModule.
Section WithBcrypt.
Context {bcrypt : Bcrypt.Lib}.

(** The hook the framework runs once at start-up. *)
Definition onModuleInit (salt salt' : Bcrypt.Salt) (uuid : string) : M unit :=
  SeedService.seed salt salt' uuid.

End WithBcrypt.
End AppModule.

(** ** The secret of auth.module.ts and jwt.strategy.ts *)

(** Both files write the secret as the template literal
    [`${process.env.JWT_SECRET}`]; [env] is the variable of the
    environment, [None] when it is not set: a template literal spells an
    undefined value out. *)
Definition JWT_SECRET (env : option string) : string :=
  match env with
  | Some s => s
  | None => "undefined"
  end.

(** ** One more fact about bcrypt *)


(** ** The table after an update *)

(** The rows after an UPDATE of the columns of [p] where the key is [i]:
    the table [Repository.update] leaves. *)
Definition updated (i : string) (p : UpdateUserDto) (t : Table) : Table :=
  map (fun u => if Repository.has_id i u then Repository.assign u p else u) t.

(** ** More sample data *)

Module Demo.

Definition admin_user : RequestUser :=
  {| userId := "8"; user_username := "alice"; user_role := ADMIN |}.

Definition plain_user : RequestUser :=
  {| userId := "2"; user_username := "bob"; user_role := USER |}.

Definition token_of (u : RequestUser) : Jwt.Token :=
  Jwt.sign (signer := Jwt.plain) Sample.secret 0
    {| Jwt.payload_username := user_username u;
       Jwt.payload_sub := userId u;
       Jwt.payload_role := user_role u |}.

(** A row whose password is the digest [Bcrypt.plain] makes of "carol-pw". *)
Definition carol : Users :=
  {| id := "3"; username := "carol";
     password := Bcrypt.hash (Lib := Bcrypt.plain) "carol-pw" 10 "s"%char;
     role := ADMIN |}.

Definition table : Table := [Sample.root; Sample.bob; carol].

Definition promote : UpdateUserDto :=
  {| upd_username := None; upd_password := None; upd_role := Some SUPERADMIN |}.

Definition empty_body : UpdateUserDto :=
  {| upd_username := None; upd_password := None; upd_role := None |}.

Definition dave : CreateUserDto :=
  {| new_username := "dave"; new_password := "dave-pw"; new_role := USER |}.

End Demo.

(** * Properties *)

(** ** The role check *)

Section RoleCheck.

(** On the three values of the enum, one string contains another when
    they are equal, and in one more case: "superadmin" contains "admin". *)
Lemma includes_UserRole_value (mine required : UserRole) :
  Js.includes (UserRole_value mine) (UserRole_value required) =
  UserRole_eqb mine required
  || (UserRole_eqb mine SUPERADMIN && UserRole_eqb required ADMIN).
Proof. destruct mine, required; reflexivity. Qed.

Lemma UserRole_eqb_eq (a b : UserRole) : UserRole_eqb a b = true <-> a = b.
Proof. destruct a, b; simpl; split; congruence. Qed.

(** The decision of the guard when the handler declares [required]. *)
Lemma canActivate_declared (required : list UserRole)
    (cls : option (list UserRole)) (user : RequestUser) :
  RolesGuard.canActivate
    {| getHandler := Roles required; getClass := cls; request_user := user |}
  = existsb (fun role =>
              Js.includes (UserRole_value (user_role user)) (UserRole_value role))
           required.
Proof. reflexivity. Qed.

(** What the guard decides for every user and every declared list: the
    role of the user is listed, or the user is a SUPERADMIN and ADMIN is
    listed. *)
Lemma canActivate_iff (required : list UserRole)
    (cls : option (list UserRole)) (user : RequestUser) :
  RolesGuard.canActivate
    {| getHandler := Roles required; getClass := cls; request_user := user |}
  = true
  <-> In (user_role user) required
      \/ (user_role user = SUPERADMIN /\ In ADMIN required).
Proof.
  rewrite canActivate_declared, existsb_exists.
  split.
  - intros [r [Hin Hpass]].
    rewrite includes_UserRole_value in Hpass.
    apply orb_true_iff in Hpass as [Heq | Hsub].
    + apply UserRole_eqb_eq in Heq. left. now rewrite Heq.
    + apply andb_true_iff in Hsub as [Hs Ha].
      apply UserRole_eqb_eq in Hs, Ha. subst r. right. now split.
  - intros [Hin | [Hs Hin]].
    + exists (user_role user). split; [assumption |].
      rewrite includes_UserRole_value.
      apply orb_true_iff. left. now apply UserRole_eqb_eq.
    + exists ADMIN. split; [assumption |].
      now rewrite Hs.
Qed.

End RoleCheck.

(** C4, evaluated on the code: a user whose role is SUPERADMIN passes the
    guard of a handler that lists ADMIN only, and of no handler that lists
    USER only; so the decision is not membership of the role in the list. *)
Theorem C4_superadmin_passes_admin_only (uid name : string) :
  let user := {| userId := uid; user_username := name; user_role := SUPERADMIN |} in
  RolesGuard.canActivate
    {| getHandler := Roles [ADMIN]; getClass := None; request_user := user |} = true
  /\ ~ In (user_role user) [ADMIN]
  /\ RolesGuard.canActivate
       {| getHandler := Roles [USER]; getClass := None; request_user := user |} = false.
Proof.
  simpl. repeat split.
  intros [H | []]. discriminate H.
Qed.

(** C5, as stated, fails: with an empty list of roles declared on the
    handler, the guard refuses a user (here one whose role is USER). *)
Lemma C5_empty_list_denies :
  RolesGuard.canActivate
    {| getHandler := Roles [];
       getClass := None;
       request_user :=
         {| userId := "7"; user_username := "ann"; user_role := USER |} |}
  = false.
Proof. reflexivity. Qed.

(** C5, amended: when neither the handler nor the class declares roles the
    guard lets every user pass, whatever the role; a declared list that is
    empty lets no user pass. *)
Theorem C5_absent_roles_allow :
  (forall user : RequestUser,
     RolesGuard.canActivate
       {| getHandler := None; getClass := None; request_user := user |} = true)
  /\ (forall (cls : option (list UserRole)) (user : RequestUser),
        RolesGuard.canActivate
          {| getHandler := Roles []; getClass := cls; request_user := user |} = false).
Proof. split; reflexivity. Qed.

(** C9: a user whose role is ADMIN does not pass the guard of a handler
    that lists SUPERADMIN only. *)
Theorem C9_admin_denied_superadmin_only
    (uid name : string) (cls : option (list UserRole)) :
  RolesGuard.canActivate
    {| getHandler := Roles [SUPERADMIN];
       getClass := cls;
       request_user :=
         {| userId := uid; user_username := name; user_role := ADMIN |} |}
  = false.
Proof. reflexivity. Qed.

(** C10: whenever ADMIN is among the roles a handler lists, a user whose
    role is SUPERADMIN passes the guard, because "superadmin" includes
    "admin" as a substring. *)
Theorem C10_superadmin_passes_when_admin_listed
    (required : list UserRole) (cls : option (list UserRole))
    (uid name : string) :
  In ADMIN required ->
  Js.includes (UserRole_value SUPERADMIN) (UserRole_value ADMIN) = true
  /\ RolesGuard.canActivate
       {| getHandler := Roles required;
          getClass := cls;
          request_user :=
            {| userId := uid; user_username := name; user_role := SUPERADMIN |} |}
     = true.
Proof.
  intros Hin. split; [reflexivity |].
  rewrite canActivate_declared, existsb_exists.
  exists ADMIN. split; [exact Hin | reflexivity].
Qed.

Lemma C10_witness :
  In ADMIN [ADMIN]
  /\ RolesGuard.canActivate
       {| getHandler := Roles [ADMIN];
          getClass := None;
          request_user :=
            {| userId := "1"; user_username := "root"; user_role := SUPERADMIN |} |}
     = true.
Proof.
  split.
  - simpl. left. reflexivity.
  - apply (C10_superadmin_passes_when_admin_listed [ADMIN] None "1" "root").
    simpl. left. reflexivity.
Defined.

(** ** The repository on a key that no row has *)

Section AbsentKey.
Variable t : Table.
Variable i : string.
Hypothesis absent : forall u, In u t -> id u <> i.

Lemma filter_has_id_absent : filter (Repository.has_id i) t = [].
Proof.
  clear -absent. induction t as [| u t' IH]; [reflexivity |].
  simpl. unfold Repository.has_id at 1.
  rewrite (proj2 (String.eqb_neq (id u) i)) by (apply absent; now left).
  apply IH. intros v Hv. apply absent. now right.
Qed.

Lemma filter_others_absent :
  filter (fun u => negb (Repository.has_id i u)) t = t.
Proof.
  clear -absent. induction t as [| u t' IH]; [reflexivity |].
  simpl. unfold Repository.has_id at 1.
  rewrite (proj2 (String.eqb_neq (id u) i)) by (apply absent; now left).
  simpl. f_equal. apply IH. intros v Hv. apply absent. now right.
Qed.

Lemma map_assign_absent (p : UpdateUserDto) :
  map (fun u => if Repository.has_id i u then Repository.assign u p else u) t = t.
Proof.
  clear -absent. induction t as [| u t' IH]; [reflexivity |].
  simpl. unfold Repository.has_id at 1.
  rewrite (proj2 (String.eqb_neq (id u) i)) by (apply absent; now left).
  f_equal. apply IH. intros v Hv. apply absent. now right.
Qed.

Lemma service_delete_absent :
  UsersService.delete i t
  = (t, Throw (NotFoundException ("User with ID " ++ i ++ " not found."))).
Proof.
  unfold UsersService.delete, Repository.delete, bind, throw.
  rewrite filter_has_id_absent, filter_others_absent. reflexivity.
Qed.

(** The service answers an update of a missing row with a
    [NotFoundException], unless the body sets no column at all: then the
    repository has already thrown. *)
Lemma service_update_absent (p : UpdateUserDto) :
  UsersService.update i p t
  = (t, Throw (if Repository.no_values p then UpdateValuesMissingError
               else NotFoundException ("User with ID " ++ i ++ " not found."))).
Proof.
  unfold UsersService.update, Repository.update, bind, throw.
  destruct (Repository.no_values p); [reflexivity |].
  rewrite filter_has_id_absent, map_assign_absent. reflexivity.
Qed.

Lemma controller_delete_absent :
  UsersController.delete i t
  = (t, Throw (ForbiddenException "No access to delete user.")).
Proof.
  unfold UsersController.delete, try_catch, bind.
  rewrite service_delete_absent. reflexivity.
Qed.

Lemma controller_update_absent (p : UpdateUserDto) :
  UsersController.update i p t
  = (t, Throw (ForbiddenException "No access to update user.")).
Proof.
  unfold UsersController.update, try_catch, bind.
  rewrite service_update_absent. reflexivity.
Qed.

End AbsentKey.

(** ** The guards of the users routes *)

(** A request whose token is accepted and whose user passes the role check
    reaches the handler. *)
Lemma UseGuards_pass {signer : Jwt.Signer} {A : Type}
    (secret : string) (now : Z) (bearer : option Jwt.Token)
    (roles : option (list UserRole)) (handler : M A) (user : RequestUser) :
  JwtAuthGuard.canActivate secret now bearer = Return user ->
  RolesGuard.canActivate
    {| getHandler := roles;
       getClass := UsersController.class_roles;
       request_user := user |} = true ->
  UsersRoutes.UseGuards secret now bearer roles handler = handler.
Proof.
  intros Hjwt Hroles. unfold UsersRoutes.UseGuards.
  rewrite Hjwt, Hroles. reflexivity.
Qed.

(** C6, evaluated on the code: for an id that no row has, the service
    throws a [NotFoundException], but the controller catches it and throws
    a [ForbiddenException] in its place; a SUPERADMIN caller of
    DELETE /users/:id and of PUT /users/:id is answered with status 403,
    not 404, and the table is left as it was. *)
Theorem C6_absent_id_answers_forbidden {signer : Jwt.Signer}
    (secret : string) (now : Z) (bearer : option Jwt.Token) (user : RequestUser)
    (t : Table) (i : string) (body : UpdateUserDto) :
  JwtAuthGuard.canActivate secret now bearer = Return user ->
  user_role user = SUPERADMIN ->
  (forall u, In u t -> id u <> i) ->
  UsersService.delete i t
  = (t, Throw (NotFoundException ("User with ID " ++ i ++ " not found.")))
  /\ UsersRoutes.DELETE_users secret now bearer i t
     = (t, Throw (ForbiddenException "No access to delete user."))
  /\ UsersRoutes.PUT_users secret now bearer i body t
     = (t, Throw (ForbiddenException "No access to update user."))
  /\ getStatus (ForbiddenException "No access to delete user.") = 403%Z
  /\ getStatus (NotFoundException ("User with ID " ++ i ++ " not found.")) = 404%Z.
Proof.
  intros Hjwt Hrole Habsent.
  split; [now apply service_delete_absent |].
  split; [| split; [| split; reflexivity]].
  - unfold UsersRoutes.DELETE_users.
    rewrite (UseGuards_pass _ _ _ _ _ Hjwt)
      by (unfold RolesGuard.canActivate; simpl; now rewrite Hrole).
    unfold bind. now rewrite controller_delete_absent.
  - unfold UsersRoutes.PUT_users.
    rewrite (UseGuards_pass _ _ _ _ _ Hjwt)
      by (unfold RolesGuard.canActivate; simpl; now rewrite Hrole).
    unfold bind. now rewrite controller_update_absent.
Qed.

Lemma C6_witness :
  JwtAuthGuard.canActivate (signer := Jwt.plain)
    Sample.secret 10 (Some Sample.root_token) = Return Sample.root_user
  /\ UsersRoutes.DELETE_users (signer := Jwt.plain)
       Sample.secret 10 (Some Sample.root_token) "3" Sample.table
     = (Sample.table, Throw (ForbiddenException "No access to delete user.")).
Proof.
  split; [reflexivity |].
  apply (@C6_absent_id_answers_forbidden Jwt.plain
           Sample.secret 10%Z (Some Sample.root_token) Sample.root_user
           Sample.table "3" Sample.new_password_only).
  - reflexivity.
  - reflexivity.
  - intros u [H | [H | []]]; subst u; simpl; discriminate.
Defined.

(** ** Seeding *)

(** [findOne] finds a row as soon as one has the username. *)
Lemma findOne_existing (name : string) (t : Table) :
  (exists u, In u t /\ username u = name) ->
  exists v, UsersService.findOne name t = (t, Return (Some v)).
Proof.
  intros [u [Hin Hname]].
  unfold UsersService.findOne, Repository.findOne.
  destruct (find (fun u0 => String.eqb (username u0) name) t) as [v |] eqn:Hfind.
  - now exists v.
  - exfalso.
    pose proof (find_none _ _ Hfind u Hin) as Hno.
    simpl in Hno. rewrite Hname, String.eqb_refl in Hno. discriminate Hno.
Qed.

(** C8: when a row with the username "superadmin" exists, [seed] returns
    and leaves the table as it is: no row is added and none is changed. *)
Theorem C8_seed_keeps_existing_superadmin {bcrypt : Bcrypt.Lib}
    (salt salt' : Bcrypt.Salt) (uuid : string) (t : Table) :
  (exists u, In u t /\ username u = "superadmin") ->
  SeedService.seed salt salt' uuid t = (t, Return tt).
Proof.
  intros Hex. apply findOne_existing in Hex as [v Hfound].
  unfold SeedService.seed, bind. now rewrite Hfound.
Qed.

Lemma C8_witness :
  (exists u, In u Sample.table /\ username u = "superadmin")
  /\ SeedService.seed (bcrypt := Bcrypt.plain) "a"%char "b"%char "3" Sample.table
     = (Sample.table, Return tt).
Proof.
  assert (H : exists u, In u Sample.table /\ username u = "superadmin").
  { exists Sample.root. split; [simpl; left; reflexivity | reflexivity]. }
  split; [exact H |].
  exact (@C8_seed_keeps_existing_superadmin Bcrypt.plain
           "a"%char "b"%char "3" Sample.table H).
Defined.

(** On an empty table [seed] inserts one row; its password is the digest
    of a digest, because [seed] hashes and [UsersService.create] hashes
    again. *)
Lemma seed_empty {bcrypt : Bcrypt.Lib}
    (salt salt' : Bcrypt.Salt) (uuid : string) :
  SeedService.seed salt salt' uuid []
  = ([ {| id := uuid;
          username := "superadmin";
          password := Bcrypt.hash (Bcrypt.hash "superadmin" 10 salt) 10 salt';
          role := SUPERADMIN |} ],
     Return tt).
Proof. reflexivity. Qed.

(** A [seed] that returned has made the next one a no-op. *)
Lemma seed_twice {bcrypt : Bcrypt.Lib}
    (s1 s1' s2 s2' : Bcrypt.Salt) (uuid1 uuid2 : string) (t t1 : Table) :
  SeedService.seed s1 s1' uuid1 t = (t1, Return tt) ->
  SeedService.seed s2 s2' uuid2 t1 = (t1, Return tt).
Proof.
  intros Hfirst.
  assert (Hex : exists u, In u t1 /\ username u = "superadmin").
  { revert Hfirst.
    unfold SeedService.seed, UsersService.findOne, Repository.findOne, bind.
    destruct (find (fun u0 => String.eqb (username u0) "superadmin") t)
      as [v |] eqn:Hfind.
    - intros Heq. injection Heq as <-.
      apply find_some in Hfind as [Hin Hname].
      exists v. split; [assumption | now apply String.eqb_eq].
    - unfold UsersService.create, Repository.save, Repository.create, ret. simpl.
      destruct (existsb (Repository.has_id uuid1) t); [discriminate |].
      intros Heq. injection Heq as <-.
      eexists. split; [apply in_or_app; right; left; reflexivity | reflexivity]. }
  apply findOne_existing in Hex as [v Hfound].
  unfold SeedService.seed, bind. now rewrite Hfound.
Qed.

(** ** Passwords *)

(** The instance without cryptography has the three properties. *)
Lemma plain_laws : Bcrypt.Laws Bcrypt.plain.
Proof.
  constructor.
  - intros data rounds s. simpl. apply String.eqb_refl.
  - intros data data' rounds s. simpl. intros H.
    apply String.eqb_eq in H. now symmetry.
  - intros data rounds s. reflexivity.
Qed.

(** A string that opens with a dollar sign still does once cut to a key. *)
Lemma key_of_crypt_format (h : string) :
  String.prefix "$" h = true -> String.prefix "$" (Bcrypt.key h) = true.
Proof.
  destruct h as [| c h']; [discriminate |].
  unfold Bcrypt.key. simpl substring. cbn [String.prefix].
  destruct (ascii_dec "$" c); [intros _ | discriminate].
  now destruct (substring 0 71 h').
Qed.

Section WithLaws.
Context {bcrypt : Bcrypt.Lib} {laws : Bcrypt.Laws bcrypt}.

(** A digest is not a string that does not open with a dollar sign. *)
Lemma digest_differs (p data : string) (rounds : nat) (s : Bcrypt.Salt) :
  String.prefix "$" p = false -> p <> Bcrypt.hash data rounds s.
Proof.
  intros Hp Heq. rewrite Heq, Bcrypt.hash_format in Hp. discriminate Hp.
Qed.

(** The digest of a digest does not verify a password that does not open
    with a dollar sign and is no longer than a key. *)
Lemma compare_digest_of_digest (p : string) (r r' : nat) (s s' : Bcrypt.Salt) :
  String.prefix "$" p = false ->
  Bcrypt.key p = p ->
  Bcrypt.compare p (Bcrypt.hash (Bcrypt.hash p r s) r' s') = false.
Proof.
  intros Hp Hkey.
  destruct (Bcrypt.compare p (Bcrypt.hash (Bcrypt.hash p r s) r' s')) eqn:Hcmp;
    [exfalso | reflexivity].
  apply Bcrypt.compare_sound in Hcmp.
  pose proof (key_of_crypt_format _ (Bcrypt.hash_format p r s)) as Hfmt.
  rewrite <- Hcmp, Hkey, Hp in Hfmt. discriminate Hfmt.
Qed.

End WithLaws.

(** [UsersService.create] persists the digest of the password it is given. *)
Lemma create_persists_digest {bcrypt : Bcrypt.Lib}
    (salt : Bcrypt.Salt) (uuid name pw : string) (r : UserRole) (t : Table) :
  existsb (Repository.has_id uuid) t = false ->
  let u := {| id := uuid; username := name;
              password := Bcrypt.hash pw 10 salt; role := r |} in
  UsersService.create salt uuid name pw r t = ((t ++ [u])%list, Return u).
Proof.
  intros Hfresh. unfold UsersService.create, Repository.save, Repository.create.
  simpl. now rewrite Hfresh.
Qed.

(** C2, evaluated on the code: an update whose body carries a password
    persists that very string in the row, and the handler reports success;
    where the string does not open with a dollar sign it is the digest of
    nothing.  Only [UsersService.create] hashes. *)
Theorem C2_update_persists_plaintext
    {bcrypt : Bcrypt.Lib} {laws : Bcrypt.Laws bcrypt}
    (t : Table) (i : string) (body : UpdateUserDto) (p : string) (u : Users) :
  upd_password body = Some p ->
  In u t ->
  id u = i ->
  exists t' u',
    UsersController.update i body t
    = (t', Return {| message := "User updated successfully." |})
    /\ In u' t' /\ id u' = i /\ password u' = p
    /\ (String.prefix "$" p = false ->
        forall (data : string) (rounds : nat) (s : Bcrypt.Salt),
          password u' <> Bcrypt.hash data rounds s).
Proof.
  intros Hpw Hin Hid.
  assert (Hhas : Repository.has_id i u = true)
    by (unfold Repository.has_id; now apply String.eqb_eq).
  assert (Hvalues : Repository.no_values body = false).
  { unfold Repository.no_values. rewrite Hpw.
    now destruct (upd_username body). }
  assert (Haffected :
            Nat.eqb (List.length (filter (Repository.has_id i) t)) 0 = false).
  { apply Nat.eqb_neq. intros Hlen. apply length_zero_iff_nil in Hlen.
    assert (Hu : In u (filter (Repository.has_id i) t))
      by (apply filter_In; now split).
    rewrite Hlen in Hu. exact Hu. }
  exists (map (fun v => if Repository.has_id i v then Repository.assign v body else v) t),
         (Repository.assign u body).
  split; [| split; [| split; [| split]]].
  - unfold UsersController.update, UsersService.update, Repository.update,
      try_catch, bind.
    rewrite Hvalues. cbn [Repository.affected]. now rewrite Haffected.
  - apply in_map_iff. exists u. now rewrite Hhas.
  - exact Hid.
  - simpl. now rewrite Hpw.
  - intros Hp data rounds s. simpl. rewrite Hpw. now apply digest_differs.
Qed.

Lemma C2_witness :
  upd_password Sample.new_password_only = Some "hunter2"
  /\ exists t' u',
       UsersController.update "2" Sample.new_password_only Sample.table
       = (t', Return {| message := "User updated successfully." |})
       /\ In u' t' /\ id u' = "2" /\ password u' = "hunter2"
       /\ (String.prefix "$" "hunter2" = false ->
           forall (data : string) (rounds : nat) (s : ascii),
             password u' <> Bcrypt.hash (Lib := Bcrypt.plain) data rounds s).
Proof.
  split; [reflexivity |].
  apply (@C2_update_persists_plaintext Bcrypt.plain plain_laws
           Sample.table "2" Sample.new_password_only "hunter2" Sample.bob).
  - reflexivity.
  - simpl. right. left. reflexivity.
  - reflexivity.
Defined.

(** ** What the users routes send back *)

(** C3, evaluated on the code: for every table and every caller whose
    token is accepted with the role SUPERADMIN or ADMIN, GET /users answers
    with one object per row, and the object of a row carries the stored
    password under the key "password". *)
Theorem C3_list_sends_stored_password {signer : Jwt.Signer}
    (secret : string) (now : Z) (bearer : option Jwt.Token) (user : RequestUser)
    (t : Table) (u : Users) :
  JwtAuthGuard.canActivate secret now bearer = Return user ->
  user_role user = SUPERADMIN \/ user_role user = ADMIN ->
  In u t ->
  UsersRoutes.GET_users secret now bearer t = (t, Return (map Users_toJSON t))
  /\ In (Users_toJSON u) (map Users_toJSON t)
  /\ property "password" (Users_toJSON u) = Some (password u).
Proof.
  intros Hjwt Hrole Hin.
  split; [| split].
  - unfold UsersRoutes.GET_users.
    rewrite (UseGuards_pass _ _ _ _ _ Hjwt).
    + reflexivity.
    + unfold RolesGuard.canActivate. simpl.
      destruct Hrole as [-> | ->]; reflexivity.
  - now apply in_map.
  - reflexivity.
Qed.

Lemma C3_witness :
  JwtAuthGuard.canActivate (signer := Jwt.plain)
    Sample.secret 10 (Some Sample.root_token) = Return Sample.root_user
  /\ UsersRoutes.GET_users (signer := Jwt.plain)
       Sample.secret 10 (Some Sample.root_token) Sample.table
     = (Sample.table, Return (map Users_toJSON Sample.table))
  /\ property "password" (Users_toJSON Sample.bob) = Some (password Sample.bob).
Proof.
  split; [reflexivity |].
  pose proof (@C3_list_sends_stored_password Jwt.plain
                Sample.secret 10%Z (Some Sample.root_token) Sample.root_user
                Sample.table Sample.bob) as H.
  destruct H as [Hget [_ Hprop]].
  - reflexivity.
  - left. reflexivity.
  - simpl. right. left. reflexivity.
  - split; [exact Hget | exact Hprop].
Defined.

(** The object [validateUser] hands on has no password: the one place
    where the sources strip it. *)
Lemma validateUser_strips_password {bcrypt : Bcrypt.Lib}
    (name pass : string) (t : Table) (r : UserWithoutPassword) :
  AuthService.validateUser name pass t = (t, Return (Some r)) ->
  exists u, In u t /\ username u = name
            /\ r = {| result_id := id u;
                      result_username := username u;
                      result_role := role u |}.
Proof.
  unfold AuthService.validateUser, UsersService.findOne, Repository.findOne, bind.
  destruct (find (fun u0 => String.eqb (username u0) name) t) as [u |] eqn:Hfind;
    [| discriminate].
  apply find_some in Hfind as [Hin Hname]. apply String.eqb_eq in Hname.
  destruct u as [i n p ro]. simpl in Hname.
  destruct (Bcrypt.compare pass p); [| discriminate].
  intros Heq. injection Heq as <-.
  eexists. split; [exact Hin |]. split; [exact Hname | reflexivity].
Qed.

(** ** Tokens *)

(** C7: the token [login] issues for a user at time [iat], presented at
    any time [now] before its expiry, is accepted, and the user put on the
    request has the id, the username and the role the token was issued
    for. *)
Theorem C7_token_round_trip {signer : Jwt.Signer}
    (secret : string) (iat now : Z) (user : UserWithoutPassword) (t : Table) :
  (now < iat + Jwt.expiresIn)%Z ->
  exists token,
    AuthService.login secret iat user t = (t, Return {| access_token := token |})
    /\ Jwt.exp (Jwt.claims token) = (iat + Jwt.expiresIn)%Z
    /\ JwtAuthGuard.canActivate secret now (Some token)
       = Return {| userId := result_id user;
                   user_username := result_username user;
                   user_role := result_role user |}.
Proof.
  intros Hfresh.
  eexists. split; [reflexivity |]. split; [reflexivity |].
  unfold JwtAuthGuard.canActivate, Jwt.verify, Jwt.sign.
  cbn [Jwt.signature Jwt.claims Jwt.exp].
  rewrite String.eqb_refl.
  destruct (Z.geb_spec now (iat + Jwt.expiresIn)) as [Hge | Hlt].
  - lia.
  - reflexivity.
Qed.

Lemma C7_witness :
  (10 < 0 + Jwt.expiresIn)%Z
  /\ JwtAuthGuard.canActivate (signer := Jwt.plain)
       Sample.secret 10 (Some Sample.root_token) = Return Sample.root_user.
Proof.
  assert (Hfresh : (10 < 0 + Jwt.expiresIn)%Z) by (unfold Jwt.expiresIn; lia).
  split; [exact Hfresh |].
  destruct (@C7_token_round_trip Jwt.plain Sample.secret 0%Z 10%Z
              {| result_id := "1"; result_username := "superadmin";
                 result_role := SUPERADMIN |} [] Hfresh)
    as [token [Hlogin [_ Hguard]]].
  injection Hlogin as <-.
  exact Hguard.
Defined.

(** From its expiry date on, the same token is refused. *)
Lemma token_expired {signer : Jwt.Signer}
    (secret : string) (iat now : Z) (p : Jwt.Payload) :
  (iat + Jwt.expiresIn <= now)%Z ->
  JwtAuthGuard.canActivate secret now (Some (Jwt.sign secret iat p))
  = Throw UnauthorizedException.
Proof.
  intros Hlate.
  unfold JwtAuthGuard.canActivate, Jwt.verify, Jwt.sign.
  cbn [Jwt.signature Jwt.claims Jwt.exp].
  rewrite String.eqb_refl.
  destruct (Z.geb_spec now (iat + Jwt.expiresIn)) as [Hge | Hlt].
  - reflexivity.
  - lia.
Qed.

(** ** Login *)

Section Login.
Context {bcrypt : Bcrypt.Lib} {laws : Bcrypt.Laws bcrypt} {signer : Jwt.Signer}.
Variable secret : string.
Variable now : Z.

(** The path that works: a user made by [UsersService.create] logs in with
    the password it was created with, and gets a token for its own id,
    username and role. *)
Lemma created_user_logs_in
    (salt : Bcrypt.Salt) (uuid name pw : string) (r : UserRole) (t : Table) :
  existsb (Repository.has_id uuid) t = false ->
  (forall u, In u t -> username u <> name) ->
  name <> "" -> pw <> "" ->
  exists t' u,
    UsersService.create salt uuid name pw r t = (t', Return u)
    /\ AuthController.login secret now name pw t'
       = (t', Return {| access_token :=
                          Jwt.sign secret now
                            {| Jwt.payload_username := name;
                               Jwt.payload_sub := uuid;
                               Jwt.payload_role := r |} |}).
Proof.
  intros Hfresh Hnew Hname Hpw.
  do 2 eexists. split; [now apply create_persists_digest |].
  unfold AuthController.login, LocalAuthGuard.canActivate.
  rewrite (proj2 (String.eqb_neq name "") Hname).
  rewrite (proj2 (String.eqb_neq pw "") Hpw).
  cbn [orb].
  unfold LocalStrategy.validate, AuthService.validateUser,
    UsersService.findOne, Repository.findOne, bind.
  assert (Hfind :
            find (fun u0 => String.eqb (username u0) name)
                 (t ++ [ {| id := uuid; username := name;
                            password := Bcrypt.hash pw 10 salt; role := r |} ])%list
            = Some {| id := uuid; username := name;
                      password := Bcrypt.hash pw 10 salt; role := r |}).
  { clear -Hnew. induction t as [| v t' IH]; simpl.
    - now rewrite String.eqb_refl.
    - rewrite (proj2 (String.eqb_neq (username v) name))
        by (apply Hnew; now left).
      apply IH. intros w Hw. apply Hnew. now right. }
  rewrite Hfind. rewrite Bcrypt.compare_hash. reflexivity.
Qed.

(** C1, evaluated on the code: [seed] on an empty table stores, as the
    password of "superadmin", the digest of the digest of "superadmin";
    the login with username "superadmin" and password "superadmin" is then
    refused with an [UnauthorizedException] and issues no token. *)
Theorem C1_seeded_login_unauthorized
    (salt salt' : Bcrypt.Salt) (uuid : string) :
  exists t,
    SeedService.seed salt salt' uuid [] = (t, Return tt)
    /\ t = [ {| id := uuid;
                username := "superadmin";
                password := Bcrypt.hash (Bcrypt.hash "superadmin" 10 salt) 10 salt';
                role := SUPERADMIN |} ]
    /\ AuthService.validateUser "superadmin" "superadmin" t = (t, Return None)
    /\ AuthController.login secret now "superadmin" "superadmin" t
       = (t, Throw UnauthorizedException).
Proof.
  eexists. split; [apply seed_empty |]. split; [reflexivity |].
  assert (Hcmp :
            Bcrypt.compare "superadmin"
              (Bcrypt.hash (Bcrypt.hash "superadmin" 10 salt) 10 salt') = false)
    by (apply compare_digest_of_digest; reflexivity).
  split.
  - unfold AuthService.validateUser, UsersService.findOne, Repository.findOne, bind.
    simpl. now rewrite Hcmp.
  - unfold AuthController.login, LocalAuthGuard.canActivate,
      LocalStrategy.validate, AuthService.validateUser,
      UsersService.findOne, Repository.findOne, bind.
    simpl. now rewrite Hcmp.
Qed.

End Login.

Lemma C1_witness :
  AuthController.login (bcrypt := Bcrypt.plain) (signer := Jwt.plain)
    Sample.secret 0 "superadmin" "superadmin"
    (fst (SeedService.seed (bcrypt := Bcrypt.plain) "a"%char "b"%char "1" []))
  = (fst (SeedService.seed (bcrypt := Bcrypt.plain) "a"%char "b"%char "1" []),
     Throw UnauthorizedException).
Proof.
  destruct (@C1_seeded_login_unauthorized Bcrypt.plain plain_laws Jwt.plain
              Sample.secret 0%Z "a"%char "b"%char "1")
    as [t [Hseed [_ [_ Hlogin]]]].
  rewrite Hseed. exact Hlogin.
Defined.

(** * Further properties of the sources *)

(** ** The role guard *)

(** X1: the decision of [RolesGuard.canActivate] on any execution
    context.  With no roles on the handler and none on the class it allows;
    otherwise the list that counts is the handler's, and the class's only
    when the handler has none, and the guard allows exactly when the role of
    the user is in that list, or the user is a SUPERADMIN and ADMIN is in
    it. *)
Theorem X1_guard_decision (context : ExecutionContext) :
  RolesGuard.canActivate context = true
  <-> match getHandler context, getClass context with
      | Some required, _ | None, Some required =>
          In (user_role (request_user context)) required
          \/ (user_role (request_user context) = SUPERADMIN /\ In ADMIN required)
      | None, None => True
      end.
Proof.
  destruct context as [handler cls user]. cbn [getHandler getClass request_user].
  destruct handler as [required |]; [| destruct cls as [required |]].
  - apply canActivate_iff.
  - change (RolesGuard.canActivate
              {| getHandler := None; getClass := Some required; request_user := user |})
      with (RolesGuard.canActivate
              {| getHandler := Roles required; getClass := None; request_user := user |}).
    apply canActivate_iff.
  - split; [trivial | reflexivity].
Qed.

(** [String.prefix] in terms of concatenation. *)
Lemma prefix_iff_append (p s : string) :
  String.prefix p s = true <-> exists r, s = p ++ r.
Proof.
  revert s. induction p as [| a p IH]; intros s.
  - split.
    + intros _. now exists s.
    + intros _. now destruct s.
  - destruct s as [| b s]; cbn [String.prefix].
    + split; [discriminate | intros [r Hr]; discriminate Hr].
    + destruct (ascii_dec a b) as [-> | Hab].
      * rewrite IH. split; intros [r Hr]; exists r.
        -- simpl. now rewrite Hr.
        -- simpl in Hr. now injection Hr.
      * split; [discriminate |].
        intros [r Hr]. simpl in Hr. injection Hr as Hb _. now symmetry in Hb.
Qed.

(** X2: the test the guard applies, [s.includes(searchString)], holds
    exactly when [searchString] occurs in [s] as a run of consecutive
    characters: [s] is some text, then [searchString], then some text. *)
Theorem X2_includes_is_substring (s searchString : string) :
  Js.includes s searchString = true
  <-> exists before after, s = before ++ searchString ++ after.
Proof.
  induction s as [| c s IH]; cbn [Js.includes].
  - destruct (String.prefix searchString "") eqn:Hp.
    + split; [intros _ | reflexivity].
      apply prefix_iff_append in Hp as [r Hr]. now exists "", r.
    + split; [discriminate |].
      intros [before [after Heq]].
      destruct before; [| discriminate Heq].
      assert (Hpre : String.prefix searchString "" = true)
        by (apply prefix_iff_append; now exists after).
      congruence.
  - destruct (String.prefix searchString (String c s)) eqn:Hp.
    + split; [intros _ | reflexivity].
      apply prefix_iff_append in Hp as [r Hr]. now exists "", r.
    + rewrite IH. split.
      * intros [before [after Heq]]. exists (String c before), after.
        simpl. now rewrite Heq.
      * intros [before [after Heq]].
        destruct before as [| b before].
        -- assert (Hpre : String.prefix searchString (String c s) = true)
             by (apply prefix_iff_append; now exists after).
           congruence.
        -- simpl in Heq. injection Heq as _ Hs. now exists before, after.
Qed.

(** ** The token guard *)

(** [JwtAuthGuard] either puts a user on the request or throws an
    [UnauthorizedException]. *)
Lemma jwt_guard_cases {signer : Jwt.Signer}
    (secret : string) (now : Z) (bearer : option Jwt.Token) :
  (exists user, JwtAuthGuard.canActivate secret now bearer = Return user)
  \/ JwtAuthGuard.canActivate secret now bearer = Throw UnauthorizedException.
Proof.
  unfold JwtAuthGuard.canActivate.
  destruct bearer as [t |]; [| now right].
  destruct (Jwt.verify secret now t); [now right | left; now eexists].
Qed.

(** The guard on a token that [Jwt.sign] made with the same secret. *)
Lemma jwt_guard_on_signed {signer : Jwt.Signer}
    (secret : string) (iat now : Z) (p : Jwt.Payload) :
  JwtAuthGuard.canActivate secret now (Some (Jwt.sign secret iat p))
  = if (now <? iat + 3600)%Z
    then Return {| userId := Jwt.payload_sub p;
                   user_username := Jwt.payload_username p;
                   user_role := Jwt.payload_role p |}
    else Throw UnauthorizedException.
Proof.
  unfold JwtAuthGuard.canActivate, Jwt.verify, Jwt.sign.
  cbn [Jwt.signature Jwt.claims Jwt.exp].
  rewrite String.eqb_refl.
  change Jwt.expiresIn with 3600%Z.
  destruct (Z.geb_spec now (iat + 3600)) as [Hge | Hlt];
    destruct (Z.ltb_spec now (iat + 3600)) as [Hlt' | Hge']; try lia; reflexivity.
Qed.

(** X3: [JwtAuthGuard] accepts a request exactly when it carries a token
    whose signature is the one the secret gives for its claims and whose
    expiry date is still ahead of the clock; the user of the request is then
    read off the claims ([sub] becomes [userId]).  A token presented at its
    expiry date is refused. *)
Theorem X3_jwt_guard_accepts_iff {signer : Jwt.Signer}
    (secret : string) (now : Z) (bearer : option Jwt.Token) (user : RequestUser) :
  JwtAuthGuard.canActivate secret now bearer = Return user
  <-> exists t,
        bearer = Some t
        /\ Jwt.signature t = Jwt.hs256 secret (Jwt.claims t)
        /\ (now < Jwt.exp (Jwt.claims t))%Z
        /\ user = {| userId := Jwt.sub (Jwt.claims t);
                     user_username := Jwt.claim_username (Jwt.claims t);
                     user_role := Jwt.claim_role (Jwt.claims t) |}.
Proof.
  unfold JwtAuthGuard.canActivate, Jwt.verify. split.
  - destruct bearer as [t |]; [| discriminate].
    destruct (String.eqb_spec (Jwt.signature t) (Jwt.hs256 secret (Jwt.claims t)))
      as [Hsig | Hsig]; [| discriminate].
    destruct (Z.geb_spec now (Jwt.exp (Jwt.claims t))) as [Hge | Hlt];
      [discriminate |].
    intros Heq. injection Heq as <-. exists t. now repeat split.
  - intros [t [-> [Hsig [Hlt ->]]]].
    rewrite Hsig, String.eqb_refl.
    destruct (Z.geb_spec now (Jwt.exp (Jwt.claims t))) as [Hge | _];
      [lia | reflexivity].
Qed.

(** X7: a token that [AuthService.login] signs at time [iat] is accepted
    by [JwtAuthGuard] during the 3600 seconds that follow and refused from
    then on; while accepted, it yields the id, username and role it was
    signed for. *)
Theorem X7_token_lives_one_hour {signer : Jwt.Signer}
    (secret : string) (iat now : Z) (user : UserWithoutPassword) (t : Table) :
  exists token,
    AuthService.login secret iat user t = (t, Return {| access_token := token |})
    /\ JwtAuthGuard.canActivate secret now (Some token)
       = if (now <? iat + 3600)%Z
         then Return {| userId := result_id user;
                        user_username := result_username user;
                        user_role := result_role user |}
         else Throw UnauthorizedException.
Proof.
  eexists. split; [reflexivity |].
  apply jwt_guard_on_signed.
Qed.

(** ** The guards in front of the users routes *)

Section RouteGuards.
Context {bcrypt : Bcrypt.Lib} {signer : Jwt.Signer}.
Variable secret : string.
Variable now : Z.

Lemma UseGuards_unauthorized {A : Type} (bearer : option Jwt.Token)
    (roles : option (list UserRole)) (handler : M A) (t : Table) :
  JwtAuthGuard.canActivate secret now bearer = Throw UnauthorizedException ->
  UsersRoutes.UseGuards secret now bearer roles handler t
  = (t, Throw UnauthorizedException).
Proof.
  intros Hjwt. unfold UsersRoutes.UseGuards. now rewrite Hjwt.
Qed.

Lemma UseGuards_forbidden {A : Type} (bearer : option Jwt.Token)
    (roles : option (list UserRole)) (handler : M A) (user : RequestUser)
    (t : Table) :
  JwtAuthGuard.canActivate secret now bearer = Return user ->
  RolesGuard.canActivate
    {| getHandler := roles;
       getClass := UsersController.class_roles;
       request_user := user |} = false ->
  UsersRoutes.UseGuards secret now bearer roles handler t
  = (t, Throw (ForbiddenException "Forbidden resource")).
Proof.
  intros Hjwt Hroles. unfold UsersRoutes.UseGuards. now rewrite Hjwt, Hroles.
Qed.

(** X4: a request that [JwtAuthGuard] does not accept (no token, a
    signature that does not match, an expired token) is answered by each of
    the four users routes with an [UnauthorizedException]; no handler runs
    and the table is left as it was. *)
Theorem X4_unauthenticated_request_changes_nothing
    (bearer : option Jwt.Token) (salt : Bcrypt.Salt) (uuid i : string)
    (new_user : CreateUserDto) (changes : UpdateUserDto) (t : Table) :
  (forall user, JwtAuthGuard.canActivate secret now bearer <> Return user) ->
  UsersRoutes.POST_users secret now bearer salt uuid new_user t
  = (t, Throw UnauthorizedException)
  /\ UsersRoutes.PUT_users secret now bearer i changes t
     = (t, Throw UnauthorizedException)
  /\ UsersRoutes.DELETE_users secret now bearer i t
     = (t, Throw UnauthorizedException)
  /\ UsersRoutes.GET_users secret now bearer t
     = (t, Throw UnauthorizedException).
Proof.
  intros Hno.
  assert (Hjwt : JwtAuthGuard.canActivate secret now bearer
                 = Throw UnauthorizedException).
  { destruct (jwt_guard_cases secret now bearer) as [[user Hu] | H];
      [now destruct (Hno user) | exact H]. }
  unfold UsersRoutes.POST_users, UsersRoutes.PUT_users,
    UsersRoutes.DELETE_users, UsersRoutes.GET_users.
  repeat split; now apply UseGuards_unauthorized.
Qed.

(** X5: a request whose token is accepted with the role USER is answered
    by each of the four users routes with a [ForbiddenException]; no handler
    runs and the table is left as it was. *)
Theorem X5_user_role_reaches_no_users_route
    (bearer : option Jwt.Token) (user : RequestUser)
    (salt : Bcrypt.Salt) (uuid i : string)
    (new_user : CreateUserDto) (changes : UpdateUserDto) (t : Table) :
  JwtAuthGuard.canActivate secret now bearer = Return user ->
  user_role user = USER ->
  UsersRoutes.POST_users secret now bearer salt uuid new_user t
  = (t, Throw (ForbiddenException "Forbidden resource"))
  /\ UsersRoutes.PUT_users secret now bearer i changes t
     = (t, Throw (ForbiddenException "Forbidden resource"))
  /\ UsersRoutes.DELETE_users secret now bearer i t
     = (t, Throw (ForbiddenException "Forbidden resource"))
  /\ UsersRoutes.GET_users secret now bearer t
     = (t, Throw (ForbiddenException "Forbidden resource")).
Proof.
  intros Hjwt Hrole.
  unfold UsersRoutes.POST_users, UsersRoutes.PUT_users,
    UsersRoutes.DELETE_users, UsersRoutes.GET_users.
  repeat split; (eapply UseGuards_forbidden; [exact Hjwt |]);
    unfold RolesGuard.canActivate; simpl; now rewrite Hrole.
Qed.

(** X6: DELETE /users/:id is for SUPERADMIN alone: a request whose token
    is accepted with another role is answered with a [ForbiddenException]
    and deletes nothing, whether a row has the id or not; with the role
    SUPERADMIN the handler runs. *)
Theorem X6_delete_is_for_superadmin_alone
    (bearer : option Jwt.Token) (user : RequestUser) (i : string) (t : Table) :
  JwtAuthGuard.canActivate secret now bearer = Return user ->
  UsersRoutes.DELETE_users secret now bearer i t
  = if UserRole_eqb (user_role user) SUPERADMIN
    then (m <- UsersController.delete i ;; ret (Message_toJSON m)) t
    else (t, Throw (ForbiddenException "Forbidden resource")).
Proof.
  intros Hjwt. unfold UsersRoutes.DELETE_users.
  destruct (user_role user) eqn:Hrole; cbn [UserRole_eqb].
  - rewrite (UseGuards_pass _ _ _ _ _ Hjwt); [reflexivity |].
    unfold RolesGuard.canActivate. simpl. now rewrite Hrole.
  - eapply UseGuards_forbidden; [exact Hjwt |].
    unfold RolesGuard.canActivate. simpl. now rewrite Hrole.
  - eapply UseGuards_forbidden; [exact Hjwt |].
    unfold RolesGuard.canActivate. simpl. now rewrite Hrole.
Qed.

End RouteGuards.

Lemma X4_witness :
  (forall user,
     JwtAuthGuard.canActivate (signer := Jwt.plain) Sample.secret 10 None
     <> Return user)
  /\ UsersRoutes.DELETE_users (signer := Jwt.plain)
       Sample.secret 10 None "2" Sample.table
     = (Sample.table, Throw UnauthorizedException).
Proof.
  assert (Hno : forall user,
             JwtAuthGuard.canActivate (signer := Jwt.plain) Sample.secret 10 None
             <> Return user) by (intros user; discriminate).
  split; [exact Hno |].
  apply (@X4_unauthenticated_request_changes_nothing Bcrypt.plain Jwt.plain
           Sample.secret 10%Z None "s"%char "9" "2" Demo.dave Demo.promote
           Sample.table Hno).
Defined.

Lemma X5_witness :
  JwtAuthGuard.canActivate (signer := Jwt.plain)
    Sample.secret 10 (Some (Demo.token_of Demo.plain_user)) = Return Demo.plain_user
  /\ UsersRoutes.GET_users (signer := Jwt.plain)
       Sample.secret 10 (Some (Demo.token_of Demo.plain_user)) Sample.table
     = (Sample.table, Throw (ForbiddenException "Forbidden resource")).
Proof.
  split; [reflexivity |].
  apply (@X5_user_role_reaches_no_users_route Bcrypt.plain Jwt.plain
           Sample.secret 10%Z (Some (Demo.token_of Demo.plain_user))
           Demo.plain_user "s"%char "9" "2" Demo.dave Demo.promote Sample.table);
    reflexivity.
Defined.

Lemma X6_witness :
  JwtAuthGuard.canActivate (signer := Jwt.plain)
    Sample.secret 10 (Some (Demo.token_of Demo.admin_user)) = Return Demo.admin_user
  /\ UsersRoutes.DELETE_users (signer := Jwt.plain)
       Sample.secret 10 (Some (Demo.token_of Demo.admin_user)) "2" Sample.table
     = (Sample.table, Throw (ForbiddenException "Forbidden resource")).
Proof.
  split; [reflexivity |].
  apply (@X6_delete_is_for_superadmin_alone Jwt.plain
           Sample.secret 10%Z (Some (Demo.token_of Demo.admin_user))
           Demo.admin_user "2" Sample.table).
  reflexivity.
Defined.

(** X8: auth.module.ts signs and jwt.strategy.ts verifies with the same
    template literal, so the tokens of a login are accepted whatever the
    environment holds; when JWT_SECRET is not set the secret is the
    nine-letter word "undefined", and a token that anyone signs with that
    word is accepted as well. *)
Theorem X8_unset_secret_is_the_word_undefined {signer : Jwt.Signer}
    (env : option string) (iat now : Z) (p : Jwt.Payload) :
  (now < iat + 3600)%Z ->
  let user := {| userId := Jwt.payload_sub p;
                 user_username := Jwt.payload_username p;
                 user_role := Jwt.payload_role p |} in
  JwtAuthGuard.canActivate (JWT_SECRET env) now
    (Some (Jwt.sign (JWT_SECRET env) iat p)) = Return user
  /\ JwtAuthGuard.canActivate (JWT_SECRET None) now
       (Some (Jwt.sign "undefined" iat p)) = Return user.
Proof.
  intros Hfresh user.
  apply Z.ltb_lt in Hfresh.
  split.
  - rewrite jwt_guard_on_signed. now rewrite Hfresh.
  - change (JWT_SECRET None) with "undefined".
    rewrite jwt_guard_on_signed. now rewrite Hfresh.
Qed.

Lemma X8_witness :
  (10 < 0 + 3600)%Z
  /\ JwtAuthGuard.canActivate (signer := Jwt.plain) (JWT_SECRET None) 10
       (Some (Jwt.sign (signer := Jwt.plain) "undefined" 0
                {| Jwt.payload_username := "mallory";
                   Jwt.payload_sub := "0";
                   Jwt.payload_role := SUPERADMIN |}))
     = Return {| userId := "0"; user_username := "mallory";
                 user_role := SUPERADMIN |}.
Proof.
  assert (Hfresh : (10 < 0 + 3600)%Z) by lia.
  split; [exact Hfresh |].
  apply (@X8_unset_secret_is_the_word_undefined Jwt.plain None 0%Z 10%Z
           {| Jwt.payload_username := "mallory";
              Jwt.payload_sub := "0";
              Jwt.payload_role := SUPERADMIN |} Hfresh).
Defined.

(** ** Login *)

(** What POST /auth/login does, in one expression. *)
Lemma login_outcome {bcrypt : Bcrypt.Lib} {signer : Jwt.Signer}
    (secret : string) (now : Z) (name pw : string) (t : Table) :
  AuthController.login secret now name pw t
  = (t,
     if String.eqb name "" || String.eqb pw "" then Throw UnauthorizedException
     else
       match find (fun u => String.eqb (username u) name) t with
       | Some u =>
           if Bcrypt.compare pw (password u)
           then Return {| access_token :=
                            Jwt.sign secret now
                              {| Jwt.payload_username := username u;
                                 Jwt.payload_sub := id u;
                                 Jwt.payload_role := role u |} |}
           else Throw UnauthorizedException
       | None => Throw UnauthorizedException
       end).
Proof.
  unfold AuthController.login, LocalAuthGuard.canActivate.
  destruct (String.eqb name "" || String.eqb pw ""); [reflexivity |].
  unfold LocalStrategy.validate, AuthService.validateUser,
    UsersService.findOne, Repository.findOne, bind.
  destruct (find (fun u => String.eqb (username u) name) t) as [[i n p r] |];
    [| reflexivity].
  cbn [password username id role].
  destruct (Bcrypt.compare pw p); reflexivity.
Qed.

(** X10: POST /auth/login answers an unknown username and a password that
    does not verify in the same way: with an [UnauthorizedException], no
    token, and the table as it was. *)
Theorem X10_unknown_user_and_wrong_password_alike
    {bcrypt : Bcrypt.Lib} {signer : Jwt.Signer}
    (secret : string) (now : Z) (name pw : string) (t : Table) :
  (forall u, In u t -> username u <> name)
  \/ (exists u, UsersService.findOne name t = (t, Return (Some u))
                /\ Bcrypt.compare pw (password u) = false) ->
  AuthController.login secret now name pw t = (t, Throw UnauthorizedException).
Proof.
  intros Hcase. rewrite login_outcome. f_equal.
  destruct (String.eqb name "" || String.eqb pw ""); [reflexivity |].
  destruct Hcase as [Hunknown | [u [Hfound Hcmp]]].
  - destruct (find (fun u => String.eqb (username u) name) t) as [v |] eqn:Hfind;
      [| reflexivity].
    apply find_some in Hfind as [Hin Hname]. apply String.eqb_eq in Hname.
    now destruct (Hunknown v Hin).
  - unfold UsersService.findOne, Repository.findOne in Hfound.
    injection Hfound as ->. now rewrite Hcmp.
Qed.

Lemma X10_witness :
  (forall u, In u Demo.table -> username u <> "nobody")
  /\ AuthController.login (bcrypt := Bcrypt.plain) (signer := Jwt.plain)
       Sample.secret 0 "nobody" "carol-pw" Demo.table
     = (Demo.table, Throw UnauthorizedException)
  /\ AuthController.login (bcrypt := Bcrypt.plain) (signer := Jwt.plain)
       Sample.secret 0 "carol" "carol-pw2" Demo.table
     = (Demo.table, Throw UnauthorizedException).
Proof.
  assert (Hunknown : forall u, In u Demo.table -> username u <> "nobody").
  { intros u [H | [H | [H | []]]]; subst u; simpl; discriminate. }
  split; [exact Hunknown |]. split.
  - apply (@X10_unknown_user_and_wrong_password_alike Bcrypt.plain Jwt.plain
             Sample.secret 0%Z "nobody" "carol-pw" Demo.table).
    left. exact Hunknown.
  - apply (@X10_unknown_user_and_wrong_password_alike Bcrypt.plain Jwt.plain
             Sample.secret 0%Z "carol" "carol-pw2" Demo.table).
    right. exists Demo.carol. split; reflexivity.
Defined.

(** X11: when POST /auth/login returns a token, the table is as it was,
    a row has the username given, the password given verifies against the
    password of that row, and the token carries the id, the username and
    the role of the row, is dated at the clock and expires 3600 seconds
    later. *)
Theorem X11_login_token_is_for_a_verified_row
    {bcrypt : Bcrypt.Lib} {signer : Jwt.Signer}
    (secret : string) (now : Z) (name pw : string) (t t' : Table)
    (token : Jwt.Token) :
  AuthController.login secret now name pw t
  = (t', Return {| access_token := token |}) ->
  t' = t
  /\ exists u,
       In u t /\ username u = name
       /\ Bcrypt.compare pw (password u) = true
       /\ Jwt.claims token
          = {| Jwt.claim_username := username u;
               Jwt.sub := id u;
               Jwt.claim_role := role u;
               Jwt.iat := now;
               Jwt.exp := now + 3600 |}.
Proof.
  rewrite login_outcome. intros Heq. injection Heq as <- Hres.
  split; [reflexivity |].
  destruct (String.eqb name "" || String.eqb pw ""); [discriminate |].
  destruct (find (fun u => String.eqb (username u) name) t) as [u |] eqn:Hfind;
    [| discriminate].
  apply find_some in Hfind as [Hin Hname]. apply String.eqb_eq in Hname.
  destruct (Bcrypt.compare pw (password u)) eqn:Hcmp; [| discriminate].
  injection Hres as <-.
  exists u. repeat split; assumption || reflexivity.
Qed.

Lemma X11_witness :
  AuthController.login (bcrypt := Bcrypt.plain) (signer := Jwt.plain)
    Sample.secret 0 "carol" "carol-pw" Demo.table
  = (Demo.table,
     Return {| access_token :=
                 Demo.token_of {| userId := "3"; user_username := "carol";
                                  user_role := ADMIN |} |})
  /\ exists u,
       In u Demo.table /\ username u = "carol"
       /\ Bcrypt.compare (Lib := Bcrypt.plain) "carol-pw" (password u) = true
       /\ Jwt.claims
            (Demo.token_of {| userId := "3"; user_username := "carol";
                              user_role := ADMIN |})
          = {| Jwt.claim_username := username u;
               Jwt.sub := id u;
               Jwt.claim_role := role u;
               Jwt.iat := 0;
               Jwt.exp := 0 + 3600 |}.
Proof.
  split; [reflexivity |].
  apply (@X11_login_token_is_for_a_verified_row Bcrypt.plain Jwt.plain
           Sample.secret 0%Z "carol" "carol-pw" Demo.table Demo.table
           (Demo.token_of {| userId := "3"; user_username := "carol";
                             user_role := ADMIN |})).
  reflexivity.
Defined.

(** ** Tokens and the table *)

Lemma delete_leaves_no_such_id (i : string) (t : Table) (v : Users) :
  In v (fst (UsersService.delete i t)) -> id v <> i.
Proof.
  unfold UsersService.delete, Repository.delete, bind. cbn [Repository.affected].
  destruct (Nat.eqb (List.length (filter (Repository.has_id i) t)) 0);
    cbn [fst]; intros Hin; apply filter_In in Hin as [_ Hneq];
    apply negb_true_iff in Hneq; now apply String.eqb_neq in Hneq.
Qed.

(** X9: the guards read the role from the token and never look the user
    up: the token of a login stays good for its hour whatever becomes of the
    row.  After the row of a SUPERADMIN or ADMIN has been deleted, or its
    role set to USER, GET /users with the old token still answers with the
    rows of the table. *)
Theorem X9_token_outlives_its_row {bcrypt : Bcrypt.Lib} {signer : Jwt.Signer}
    (secret : string) (iat now : Z) (name pw : string) (t : Table)
    (token : Jwt.Token) :
  AuthController.login secret iat name pw t
  = (t, Return {| access_token := token |}) ->
  Jwt.claim_role (Jwt.claims token) <> USER ->
  (now < iat + 3600)%Z ->
  let i := Jwt.sub (Jwt.claims token) in
  let deleted := fst (UsersService.delete i t) in
  let demoted :=
    fst (UsersService.update i
           {| upd_username := None; upd_password := None; upd_role := Some USER |}
           t) in
  (forall v, In v deleted -> id v <> i)
  /\ (forall v, In v demoted -> id v = i -> role v = USER)
  /\ UsersRoutes.GET_users secret now (Some token) deleted
     = (deleted, Return (map Users_toJSON deleted))
  /\ UsersRoutes.GET_users secret now (Some token) demoted
     = (demoted, Return (map Users_toJSON demoted)).
Proof.
  rewrite login_outcome. intros Hlogin Hrole Hfresh i deleted demoted.
  injection Hlogin as Hres.
  destruct (String.eqb name "" || String.eqb pw ""); [discriminate |].
  destruct (find (fun u => String.eqb (username u) name) t) as [u |];
    [| discriminate].
  destruct (Bcrypt.compare pw (password u)); [| discriminate].
  injection Hres as Htoken.
  assert (Hguard :
            JwtAuthGuard.canActivate secret now (Some token)
            = Return {| userId := id u; user_username := username u;
                        user_role := role u |}).
  { rewrite <- Htoken, jwt_guard_on_signed.
    apply Z.ltb_lt in Hfresh. now rewrite Hfresh. }
  assert (Hpass : forall t0,
             UsersRoutes.GET_users secret now (Some token) t0
             = (t0, Return (map Users_toJSON t0))).
  { intros t0. unfold UsersRoutes.GET_users.
    rewrite (UseGuards_pass _ _ _ _ _ Hguard); [reflexivity |].
    unfold RolesGuard.canActivate. simpl.
    rewrite <- Htoken in Hrole. simpl in Hrole.
    destruct (role u); [reflexivity | reflexivity | now destruct Hrole]. }
  split; [| split; [| split]].
  - intros v Hv. now apply delete_leaves_no_such_id in Hv.
  - subst demoted.
    unfold UsersService.update, Repository.update, bind.
    cbn [Repository.no_values upd_username upd_password upd_role Repository.affected].
    intros v Hv Hid.
    assert (Hmap : In v (map (fun u0 =>
                     if Repository.has_id i u0
                     then Repository.assign u0
                            {| upd_username := None; upd_password := None;
                               upd_role := Some USER |}
                     else u0) t)).
    { destruct (Nat.eqb (List.length (filter (Repository.has_id i) t)) 0);
        exact Hv. }
    apply in_map_iff in Hmap as [w [Hw _]].
    destruct (Repository.has_id i w) eqn:Hhas.
    + now subst v.
    + subst v. unfold Repository.has_id in Hhas.
      apply String.eqb_neq in Hhas. now destruct Hhas.
  - apply Hpass.
  - apply Hpass.
Qed.

Lemma X9_witness :
  AuthController.login (bcrypt := Bcrypt.plain) (signer := Jwt.plain)
    Sample.secret 0 "carol" "carol-pw" Demo.table
  = (Demo.table,
     Return {| access_token :=
                 Demo.token_of {| userId := "3"; user_username := "carol";
                                  user_role := ADMIN |} |})
  /\ UsersRoutes.GET_users (signer := Jwt.plain) Sample.secret 10
       (Some (Demo.token_of {| userId := "3"; user_username := "carol";
                               user_role := ADMIN |}))
       (fst (UsersService.delete "3" Demo.table))
     = (Sample.table, Return (map Users_toJSON Sample.table)).
Proof.
  split; [reflexivity |].
  assert (Hfresh : (10 < 0 + 3600)%Z) by lia.
  assert (Hrole : Jwt.claim_role
                    (Jwt.claims
                       (Demo.token_of {| userId := "3"; user_username := "carol";
                                         user_role := ADMIN |})) <> USER)
    by discriminate.
  exact (proj1 (proj2 (proj2
           (@X9_token_outlives_its_row Bcrypt.plain Jwt.plain
              Sample.secret 0%Z 10%Z "carol" "carol-pw" Demo.table
              (Demo.token_of {| userId := "3"; user_username := "carol";
                                user_role := ADMIN |})
              eq_refl Hrole Hfresh)))).
Defined.

(** ** Creating users *)

Lemma find_app_first {A : Type} (P : A -> bool) (l l' : list A) (v : A) :
  find P l = Some v -> find P (l ++ l')%list = Some v.
Proof.
  induction l as [| a l IH]; simpl; [discriminate |].
  destruct (P a); [trivial | exact IH].
Qed.


(** X13: [UsersService.create] does not look for the username: with a
    username that a row already has, it inserts a second row of that name.
    [findOne] goes on returning the older row, so [validateUser] never
    returns the new user, whatever the password. *)
Theorem X13_second_user_of_a_name_is_shadowed {bcrypt : Bcrypt.Lib}
    (salt : Bcrypt.Salt) (uuid name pw : string) (r : UserRole)
    (t : Table) (older : Users) :
  UsersService.findOne name t = (t, Return (Some older)) ->
  existsb (Repository.has_id uuid) t = false ->
  exists t' newer,
    UsersService.create salt uuid name pw r t = (t', Return newer)
    /\ In older t' /\ In newer t'
    /\ username newer = name /\ id newer = uuid /\ id older <> uuid
    /\ UsersService.findOne name t' = (t', Return (Some older))
    /\ forall pass found,
         AuthService.validateUser name pass t' = (t', Return (Some found)) ->
         result_id found = id older.
Proof.
  intros Hfound Hfresh.
  unfold UsersService.findOne, Repository.findOne in Hfound.
  injection Hfound as Hfind.
  pose proof (find_some _ _ Hfind) as [Hin _].
  do 2 eexists.
  split; [now apply create_persists_digest |].
  assert (Hfind' :
            forall l', find (fun u => String.eqb (username u) name) (t ++ l')%list
                       = Some older)
    by (intros l'; now apply find_app_first).
  split; [apply in_or_app; now left |].
  split; [apply in_or_app; right; now left |].
  split; [reflexivity |]. split; [reflexivity |].
  split.
  { intros Heq.
    assert (Hex : existsb (Repository.has_id uuid) t = true).
    { apply existsb_exists. exists older. split; [exact Hin |].
      unfold Repository.has_id. now apply String.eqb_eq. }
    congruence. }
  split.
  - unfold UsersService.findOne, Repository.findOne. now rewrite Hfind'.
  - intros pass found.
    unfold AuthService.validateUser, UsersService.findOne, Repository.findOne, bind.
    rewrite Hfind'. destruct older as [i n p ro].
    destruct (Bcrypt.compare pass p); [| discriminate].
    intros Heq. injection Heq as <-. reflexivity.
Qed.

Lemma X13_witness :
  UsersService.findOne "bob" Sample.table = (Sample.table, Return (Some Sample.bob))
  /\ exists t' newer,
       UsersService.create (bcrypt := Bcrypt.plain) "s"%char "9" "bob" "other-pw"
         ADMIN Sample.table = (t', Return newer)
       /\ id newer = "9"
       /\ UsersService.findOne "bob" t' = (t', Return (Some Sample.bob)).
Proof.
  split; [reflexivity |].
  destruct (@X13_second_user_of_a_name_is_shadowed Bcrypt.plain
              "s"%char "9" "bob" "other-pw" ADMIN Sample.table Sample.bob
              eq_refl eq_refl)
    as [t' [newer [Hcreate [_ [_ [_ [Hid [_ [Hfind _]]]]]]]]].
  exists t', newer. now repeat split.
Defined.

Section CreateAndUse.
Context {bcrypt : Bcrypt.Lib} {laws : Bcrypt.Laws bcrypt} {signer : Jwt.Signer}.
Variable secret : string.


End CreateAndUse.


(** ** Updating and deleting rows *)


Lemma affected_zero_iff (i : string) (t : Table) :
  Nat.eqb (List.length (filter (Repository.has_id i) t)) 0 = true
  <-> forall u, In u t -> id u <> i.
Proof.
  rewrite Nat.eqb_eq, length_zero_iff_nil. split.
  - intros Hnil u Hin Hid.
    assert (Hu : In u (filter (Repository.has_id i) t)).
    { apply filter_In. split; [exact Hin |].
      unfold Repository.has_id. now apply String.eqb_eq. }
    rewrite Hnil in Hu. exact Hu.
  - intros Habsent. now apply filter_has_id_absent.
Qed.

(** [UsersService.update], case by case. *)
Lemma service_update_outcome (i : string) (p : UpdateUserDto) (t : Table) :
  UsersService.update i p t
  = if Repository.no_values p then (t, Throw UpdateValuesMissingError)
    else if Nat.eqb (List.length (filter (Repository.has_id i) t)) 0
         then (updated i p t,
               Throw (NotFoundException ("User with ID " ++ i ++ " not found.")))
         else (updated i p t, Return tt).
Proof.
  unfold UsersService.update, Repository.update, bind, updated.
  destruct (Repository.no_values p); [reflexivity |].
  cbn [Repository.affected].
  now destruct (Nat.eqb (List.length (filter (Repository.has_id i) t)) 0).
Qed.

Lemma controller_update_present (i : string) (p : UpdateUserDto)
    (t : Table) (u : Users) :
  Repository.no_values p = false -> In u t -> id u = i ->
  UsersController.update i p t
  = (updated i p t, Return {| message := "User updated successfully." |})
  /\ In (Repository.assign u p) (updated i p t).
Proof.
  intros Hvalues Hin Hid. split.
  - unfold UsersController.update, try_catch, bind.
    rewrite service_update_outcome, Hvalues.
    destruct (Nat.eqb (List.length (filter (Repository.has_id i) t)) 0) eqn:Hz;
      [| reflexivity].
    pose proof (proj1 (affected_zero_iff i t) Hz) as Hnone.
    now destruct (Hnone u Hin).
  - unfold updated. apply in_map_iff. exists u. split; [| exact Hin].
    unfold Repository.has_id. now rewrite (proj2 (String.eqb_eq (id u) i) Hid).
Qed.



(** X18: DELETE is not repeatable: once [UsersController.delete] has run
    for an id, on any table, running it again for that id throws the
    [ForbiddenException] of the handler and leaves the table as it is. *)
Theorem X18_second_delete_is_refused (i : string) (t : Table) :
  let t' := fst (UsersController.delete i t) in
  UsersController.delete i t'
  = (t', Throw (ForbiddenException "No access to delete user.")).
Proof.
  intros t'. apply controller_delete_absent.
  intros u Hin. apply (@delete_leaves_no_such_id i t).
  subst t'. revert Hin.
  unfold UsersController.delete, try_catch, bind.
  now destruct (UsersService.delete i t) as [t0 [[] | e]].
Qed.





Section AuthorizedWrites.
Context {bcrypt : Bcrypt.Lib} {signer : Jwt.Signer}.
Variable secret : string.
Variable now : Z.

(** X15: PUT /users/:id puts no bound on the role it writes: a caller
    whose role is ADMIN can set the role of any row, its own included, to
    any role, SUPERADMIN included; the other columns of the row stay. *)
Theorem X15_admin_can_grant_any_role
    (bearer : option Jwt.Token) (caller : RequestUser)
    (i : string) (r : UserRole) (t : Table) (u : Users) :
  JwtAuthGuard.canActivate secret now bearer = Return caller ->
  user_role caller = ADMIN ->
  In u t ->
  id u = i ->
  exists t',
    UsersRoutes.PUT_users secret now bearer i
      {| upd_username := None; upd_password := None; upd_role := Some r |} t
    = (t', Return [("message", "User updated successfully.")])
    /\ In {| id := i; username := username u; password := password u; role := r |} t'.
Proof.
  intros Hjwt Hcaller Hin Hid.
  destruct (@controller_update_present i
              {| upd_username := None; upd_password := None; upd_role := Some r |}
              t u eq_refl Hin Hid) as [Hupdate Hrow].
  eexists. split.
  - unfold UsersRoutes.PUT_users.
    rewrite (UseGuards_pass _ _ _ _ _ Hjwt)
      by (unfold RolesGuard.canActivate; simpl; now rewrite Hcaller).
    unfold bind. rewrite Hupdate. reflexivity.
  - unfold Repository.assign in Hrow. cbn in Hrow. now rewrite Hid in Hrow.
Qed.

(** X19: PUT /users/:id with a body that sets no column is refused even
    when the row exists: the repository throws before any query, the handler
    turns that into its [ForbiddenException], and the table stays as it
    was. *)
Theorem X19_empty_update_is_refused
    (bearer : option Jwt.Token) (caller : RequestUser) (i : string) (t : Table) :
  JwtAuthGuard.canActivate secret now bearer = Return caller ->
  user_role caller <> USER ->
  UsersService.update i
    {| upd_username := None; upd_password := None; upd_role := None |} t
  = (t, Throw UpdateValuesMissingError)
  /\ UsersRoutes.PUT_users secret now bearer i
       {| upd_username := None; upd_password := None; upd_role := None |} t
     = (t, Throw (ForbiddenException "No access to update user.")).
Proof.
  intros Hjwt Hcaller. split; [reflexivity |].
  unfold UsersRoutes.PUT_users.
  rewrite (UseGuards_pass _ _ _ _ _ Hjwt).
  - reflexivity.
  - unfold RolesGuard.canActivate. simpl.
    destruct (user_role caller); [reflexivity | reflexivity | now destruct Hcaller].
Qed.

(** X20: POST /users with an empty username or an empty password is
    stopped by the validation of the body, after the guards and before the
    handler: the answer is a [BadRequestException] and no row is added. *)
Theorem X20_empty_credentials_are_a_bad_request
    (bearer : option Jwt.Token) (caller : RequestUser)
    (salt : Bcrypt.Salt) (uuid : string) (body : CreateUserDto) (t : Table) :
  JwtAuthGuard.canActivate secret now bearer = Return caller ->
  user_role caller <> USER ->
  new_username body = "" \/ new_password body = "" ->
  UsersRoutes.POST_users secret now bearer salt uuid body t
  = (t, Throw BadRequestException).
Proof.
  intros Hjwt Hcaller Hempty.
  unfold UsersRoutes.POST_users.
  rewrite (UseGuards_pass _ _ _ _ _ Hjwt).
  - unfold UsersRoutes.validate_create.
    destruct Hempty as [-> | ->]; cbn [String.eqb negb andb];
      [reflexivity | now rewrite andb_false_r].
  - unfold RolesGuard.canActivate. simpl.
    destruct (user_role caller); [reflexivity | reflexivity | now destruct Hcaller].
Qed.

End AuthorizedWrites.

Lemma X15_witness :
  JwtAuthGuard.canActivate (signer := Jwt.plain)
    Sample.secret 10 (Some (Demo.token_of Demo.admin_user)) = Return Demo.admin_user
  /\ exists t',
       UsersRoutes.PUT_users (signer := Jwt.plain) Sample.secret 10
         (Some (Demo.token_of Demo.admin_user)) "2" Demo.promote Sample.table
       = (t', Return [("message", "User updated successfully.")])
       /\ In {| id := "2"; username := "bob";
                password := password Sample.bob; role := SUPERADMIN |} t'.
Proof.
  split; [reflexivity |].
  apply (@X15_admin_can_grant_any_role Jwt.plain Sample.secret 10%Z
           (Some (Demo.token_of Demo.admin_user)) Demo.admin_user
           "2" SUPERADMIN Sample.table Sample.bob).
  - reflexivity.
  - reflexivity.
  - simpl. right. left. reflexivity.
  - reflexivity.
Defined.

Lemma X19_witness :
  JwtAuthGuard.canActivate (signer := Jwt.plain)
    Sample.secret 10 (Some Sample.root_token) = Return Sample.root_user
  /\ UsersRoutes.PUT_users (signer := Jwt.plain) Sample.secret 10
       (Some Sample.root_token) "2" Demo.empty_body Sample.table
     = (Sample.table, Throw (ForbiddenException "No access to update user.")).
Proof.
  split; [reflexivity |].
  apply (@X19_empty_update_is_refused Jwt.plain Sample.secret 10%Z
           (Some Sample.root_token) Sample.root_user "2" Sample.table).
  - reflexivity.
  - discriminate.
Defined.

Lemma X20_witness :
  JwtAuthGuard.canActivate (signer := Jwt.plain)
    Sample.secret 10 (Some Sample.root_token) = Return Sample.root_user
  /\ UsersRoutes.POST_users (bcrypt := Bcrypt.plain) (signer := Jwt.plain)
       Sample.secret 10 (Some Sample.root_token) "s"%char "9"
       {| new_username := "frank"; new_password := ""; new_role := USER |}
       Sample.table
     = (Sample.table, Throw BadRequestException).
Proof.
  split; [reflexivity |].
  apply (@X20_empty_credentials_are_a_bad_request Bcrypt.plain Jwt.plain
           Sample.secret 10%Z (Some Sample.root_token) Sample.root_user
           "s"%char "9"
           {| new_username := "frank"; new_password := ""; new_role := USER |}
           Sample.table).
  - reflexivity.
  - discriminate.
  - right. reflexivity.
Defined.

(** ** Start-up *)

(** X21: what [onModuleInit] leaves behind.  When the uuid drawn is not
    the key of a row, the hook returns; afterwards some row has the
    username "superadmin", every row of the table is still there, and at
    most one row was added.  When no row had that username, the row added
    is the last one, with the uuid as key and the role SUPERADMIN. *)
Theorem X21_startup_ensures_a_superadmin_row {bcrypt : Bcrypt.Lib}
    (salt salt' : Bcrypt.Salt) (uuid : string) (t : Table) :
  existsb (Repository.has_id uuid) t = false ->
  exists t',
    AppModule.onModuleInit salt salt' uuid t = (t', Return tt)
    /\ (exists u, In u t' /\ username u = "superadmin")
    /\ (forall v, In v t -> In v t')
    /\ List.length t' <= S (List.length t)
    /\ ((forall v, In v t -> username v <> "superadmin") ->
        exists u, t' = (t ++ [u])%list
                  /\ id u = uuid /\ username u = "superadmin"
                  /\ role u = SUPERADMIN).
Proof.
  intros Hfresh.
  unfold AppModule.onModuleInit, SeedService.seed,
    UsersService.findOne, Repository.findOne, bind.
  destruct (find (fun u => String.eqb (username u) "superadmin") t)
    as [v |] eqn:Hfind.
  - apply find_some in Hfind as [Hin Hname]. apply String.eqb_eq in Hname.
    exists t. split; [reflexivity |].
    split; [now exists v |]. split; [trivial |]. split; [lia |].
    intros Hnone. now destruct (Hnone v Hin).
  - rewrite create_persists_digest by exact Hfresh.
    eexists. split; [reflexivity |].
    split; [eexists; split; [apply in_or_app; right; left; reflexivity | reflexivity] |].
    split; [intros w Hw; apply in_or_app; now left |].
    split; [rewrite length_app; simpl; lia |].
    intros _. eexists. split; [reflexivity |]. now repeat split.
Qed.

Lemma X21_witness :
  existsb (Repository.has_id "9") [Sample.bob] = false
  /\ exists t',
       AppModule.onModuleInit (bcrypt := Bcrypt.plain) "a"%char "b"%char "9"
         [Sample.bob] = (t', Return tt)
       /\ exists u, In u t' /\ username u = "superadmin".
Proof.
  split; [reflexivity |].
  destruct (@X21_startup_ensures_a_superadmin_row Bcrypt.plain
              "a"%char "b"%char "9" [Sample.bob] eq_refl)
    as [t' [Hrun [Hrow _]]].
  exists t'. split; [exact Hrun | exact Hrow].
Defined.

(** X22: starting twice is starting once: when [onModuleInit] has
    returned, running it again, with any salts and any uuid, returns and
    leaves the table as the first run left it. *)
Theorem X22_startup_twice_is_startup_once {bcrypt : Bcrypt.Lib}
    (s1 s1' s2 s2' : Bcrypt.Salt) (uuid1 uuid2 : string) (t t1 : Table) :
  AppModule.onModuleInit s1 s1' uuid1 t = (t1, Return tt) ->
  AppModule.onModuleInit s2 s2' uuid2 t1 = (t1, Return tt).
Proof.
  unfold AppModule.onModuleInit. apply seed_twice.
Qed.

Lemma X22_witness :
  AppModule.onModuleInit (bcrypt := Bcrypt.plain) "a"%char "b"%char "9" []
  = (fst (SeedService.seed (bcrypt := Bcrypt.plain) "a"%char "b"%char "9" []),
     Return tt)
  /\ AppModule.onModuleInit (bcrypt := Bcrypt.plain) "c"%char "d"%char "10"
       (fst (SeedService.seed (bcrypt := Bcrypt.plain) "a"%char "b"%char "9" []))
     = (fst (SeedService.seed (bcrypt := Bcrypt.plain) "a"%char "b"%char "9" []),
        Return tt).
Proof.
  split; [reflexivity |].
  apply (@X22_startup_twice_is_startup_once Bcrypt.plain
           "a"%char "b"%char "c"%char "d"%char "9" "10" []).
  reflexivity.
Defined.

(** ** The password of the seeded account *)

(** X23: after [seed] on an empty table the account "superadmin" has a
    password, though not the one written in the sources: the login succeeds
    with the intermediate digest that [seed] computed and threw away, and
    whatever password logs in has the 72-byte key of that digest. *)
Theorem X23_seeded_password_is_the_inner_digest
    {bcrypt : Bcrypt.Lib} {laws : Bcrypt.Laws bcrypt} {signer : Jwt.Signer}
    (secret : string) (now : Z) (salt salt' : Bcrypt.Salt) (uuid : string) :
  let inner := Bcrypt.hash "superadmin" 10 salt in
  let t := fst (SeedService.seed salt salt' uuid []) in
  AuthController.login secret now "superadmin" inner t
  = (t, Return {| access_token :=
                    Jwt.sign secret now
                      {| Jwt.payload_username := "superadmin";
                         Jwt.payload_sub := uuid;
                         Jwt.payload_role := SUPERADMIN |} |})
  /\ forall pw token,
       AuthController.login secret now "superadmin" pw t
       = (t, Return {| access_token := token |}) ->
       Bcrypt.key pw = Bcrypt.key inner.
Proof.
  intros inner t. subst inner t. rewrite seed_empty. cbn [fst].
  split.
  - rewrite login_outcome. f_equal.
    assert (Hne : String.eqb (Bcrypt.hash "superadmin" 10 salt) "" = false).
    { pose proof (Bcrypt.hash_format "superadmin" 10 salt) as Hfmt.
      revert Hfmt.
      destruct (Bcrypt.hash "superadmin" 10 salt); [cbn; discriminate | reflexivity]. }
    rewrite Hne. simpl. now rewrite Bcrypt.compare_hash.
  - intros pw token. rewrite login_outcome.
    destruct (String.eqb "superadmin" "" || String.eqb pw ""); [discriminate |].
    simpl.
    destruct (Bcrypt.compare pw (Bcrypt.hash (Bcrypt.hash "superadmin" 10 salt) 10 salt'))
      eqn:Hcmp; [| discriminate].
    intros _. now apply Bcrypt.compare_sound in Hcmp.
Qed.

Lemma X23_witness :
  AuthController.login (bcrypt := Bcrypt.plain) (signer := Jwt.plain)
    Sample.secret 0 "superadmin"
    (Bcrypt.hash (Lib := Bcrypt.plain) "superadmin" 10 "a"%char)
    (fst (SeedService.seed (bcrypt := Bcrypt.plain) "a"%char "b"%char "1" []))
  = (fst (SeedService.seed (bcrypt := Bcrypt.plain) "a"%char "b"%char "1" []),
     Return {| access_token :=
                 Jwt.sign (signer := Jwt.plain) Sample.secret 0
                   {| Jwt.payload_username := "superadmin";
                      Jwt.payload_sub := "1";
                      Jwt.payload_role := SUPERADMIN |} |}).
Proof.
  exact (proj1 (@X23_seeded_password_is_the_inner_digest Bcrypt.plain plain_laws
                  Jwt.plain Sample.secret 0%Z "a"%char "b"%char "1")).
Defined.
